(** * kalmanif: the differential-drive self-calibration demo

    A shallow embedding of [examples/demo_diff_drive_self_calib.cpp].

    The demo is a single [main]: a configuration block, then a loop over a
    clock [t] that simulates the robot, feeds four Kalman filters (EKF, SEKF,
    IEKF, UKFM) and an unfiltered baseline, and corrects the filters with
    landmark and GPS measurements behind two rate gates.

    Numbers are what the source declares them to be, [double]: binary64, as
    Rocq's primitive floats compute them.  The loop clock is written over a
    small interface of scalar operations, which binary64 implements.

    What the demo calls but does not define (the manifold operations of
    manif, the filters and measurement models of the kalmanif headers, the
    random generator of utils/rand.h) is collected in the record [Library],
    and the statements about [main] hold for any such library.  The
    differential-drive model, whose header is not among the sources either,
    is written out from the specification in the module [DiffDrive]; only
    the statements about the pose increment, about what the calibration
    block holds and about the load event rest on it. *)

From Stdlib Require Import String ZArith List Bool Floats Lia.
Import ListNotations.

Set Warnings "-inexact-float,-abstract-large-number".

(* ================================================================= *)
(** * Scalars *)

(** The operations the loop clock needs of a scalar type. *)
Class Arith (T : Type) : Type := {
  of_int : Z -> T;        (* the conversion of an int operand *)
  to_int : T -> Z;        (* int(x): truncation toward zero *)
  add : T -> T -> T;
  mul : T -> T -> T;
  div : T -> T -> T;
  ltb : T -> T -> bool
}.

Module Double.

(** An [int] as a double; the demo's integers are small, so the
    conversion is exact. *)
Definition of_int (z : Z) : float :=
  match z with
  | Z0 => 0%float
  | Zpos _ => PrimFloat.of_uint63 (Uint63.of_Z z)
  | Zneg p => PrimFloat.opp (PrimFloat.of_uint63 (Uint63.of_Z (Zpos p)))
  end.

(** [int(x)] of a double: the integer part, rounding toward zero. *)
Definition to_int (x : float) : Z :=
  match Prim2SF x with
  | S754_finite s m e =>
      let a := match e with
               | Z0 => Zpos m
               | Zpos p => Z.shiftl (Zpos m) (Zpos p)
               | Zneg p => Z.shiftr (Zpos m) (Zpos p)
               end in
      if s then Z.opp a else a
  | _ => 0%Z
  end.

End Double.

#[export] Instance double_arith : Arith float := {
  of_int := Double.of_int;
  to_int := Double.to_int;
  add := PrimFloat.add;
  mul := PrimFloat.mul;
  div := PrimFloat.div;
  ltb := PrimFloat.ltb
}.

(* ================================================================= *)
(** * Rates and the loop clock *)

Definition control_freq : Z := 100.     (* Hz *)
Definition landmark_freq : Z := 50.     (* Hz *)
Definition gps_freq : Z := 10.          (* Hz *)

Section Clock.

Context {T : Type} `{Arith T}.

(** [constexpr double dt = 1./control_freq;] *)
Definition dt : T := div (of_int 1) (of_int control_freq).

(** The loop header [for (double t = 0; t < 240; t += dt)]. *)
Definition t_start : T := of_int 0.
Definition running (t : T) : bool := ltb t (of_int 240).
Definition next_time (t : T) : T := add t dt.

(** The value of [t] in iteration [k] (counting from 0). *)
Fixpoint time_at (k : nat) : T :=
  match k with
  | O => t_start
  | S n => next_time (time_at n)
  end.

(** [int(t*100)] *)
Definition tick (t : T) : Z := to_int (mul t (of_int 100)).

(** [int(t*100) % int(100./landmark_freq) == 0] *)
Definition landmark_due (t : T) : bool :=
  (Z.rem (tick t) (to_int (div (of_int 100) (of_int landmark_freq))) =? 0)%Z.

(** [int(t*100) % int(100./gps_freq) == 0] *)
Definition gps_due (t : T) : bool :=
  (Z.rem (tick t) (to_int (div (of_int 100) (of_int gps_freq))) =? 0)%Z.

(** [t > 120]: the load is on the robot. *)
Definition loaded (t : T) : bool := ltb (of_int 120) t.

(** A check over [n] consecutive iterations, the first at time [t]. *)
Fixpoint check_times (P : T -> bool) (n : nat) (t : T) : bool :=
  match n with
  | O => true
  | S n' => P t && check_times P n' (next_time t)
  end.

(** How many of [n] consecutive iterations, the first at time [t],
    satisfy [P]. *)
Fixpoint count_times (P : T -> bool) (n : nat) (t : T) : nat :=
  match n with
  | O => O
  | S n' => (if P t then 1 else 0) + count_times P n' (next_time t)
  end.

End Clock.

(* ================================================================= *)
(** * Vectors and matrices *)

Local Open Scope float_scope.

(** [Eigen::Vector2d] and [Eigen::Array2d]: two doubles.  The two differ
    in what [*] means, so the operations carry the distinction. *)
Record Vector2d : Type := vec2 { x0 : float; x1 : float }.
Definition Array2d : Type := Vector2d.

Record Vector3d : Type := vec3 { a0 : float; a1 : float; a2 : float }.

Record Matrix2d : Type :=
  mat2 { m00 : float; m01 : float; m10 : float; m11 : float }.

Definition Vector6d : Type := list float.
Definition Matrix6d : Type := list (list float).     (* rows *)

Module Eigen.

(** vector + vector *)
Definition plus (u v : Vector2d) : Vector2d :=
  vec2 (x0 u + x0 v) (x1 u + x1 v).

(** vector * scalar *)
Definition scale (u : Vector2d) (s : float) : Vector2d :=
  vec2 (x0 u * s) (x1 u * s).

(** array / scalar *)
Definition array_quot (a : Array2d) (s : float) : Array2d :=
  vec2 (x0 a / s) (x1 a / s).

(** array * array, coefficient by coefficient *)
Definition array_prod (a b : Array2d) : Array2d :=
  vec2 (x0 a * x0 b) (x1 a * x1 b).

(** [a.matrix().asDiagonal()] *)
Definition asDiagonal (a : Array2d) : Matrix2d :=
  mat2 (x0 a) 0 0 (x1 a).

(** scalar * identity, for stating what a diagonal matrix is *)
Definition scaled_identity (s : float) : Matrix2d := mat2 s 0 0 s.

Definition plus3 (u v : Vector3d) : Vector3d :=
  vec3 (a0 u + a0 v) (a1 u + a1 v) (a2 u + a2 v).

Definition Zero3 : Vector3d := vec3 0 0 0.

(** The 6x6 zero matrix. *)
Definition Zero6 : Matrix6d := repeat (repeat 0 6) 6.

Fixpoint set_nth {A : Type} (i : nat) (a : A) (l : list A) : list A :=
  match l, i with
  | [], _ => []
  | _ :: l', O => a :: l'
  | b :: l', S i' => b :: set_nth i' a l'
  end.

(** [M(i, j) = v] *)
Definition set_entry (i j : nat) (v : float) (M : Matrix6d) : Matrix6d :=
  set_nth i (set_nth j v (nth i M [])) M.

Definition entry (M : Matrix6d) (i j : nat) : float := nth j (nth i M []) 0.

(** [M.cwiseSqrt()] *)
Definition cwiseSqrt (M : Matrix6d) : Matrix6d := map (map PrimFloat.sqrt) M.

Definition dot (r v : list float) : float :=
  fold_left (fun acc p => acc + fst p * snd p) (combine r v) 0.

(** matrix * vector *)
Definition mat_vec (M : Matrix6d) (v : Vector6d) : Vector6d :=
  map (fun r => dot r v) M.

(** [v(i) += s] *)
Definition add_at (i : nat) (s : float) (v : Vector6d) : Vector6d :=
  set_nth i (nth i v 0 + s) v.

(** [v.tail<3>()] of a 6-vector *)
Definition tail3 (v : Vector6d) : Vector3d :=
  vec3 (nth 3 v 0) (nth 4 v 0) (nth 5 v 0).

End Eigen.

(* ================================================================= *)
(** * The data model of the demo *)

(** [Control]: the pair of wheel angles (phi_l, phi_r). *)
Definition Control : Type := Vector2d.

(** [Kinematics]: wheel radii and wheel separation. *)
Record Kinematics : Type :=
  Build_Kinematics { r_l : float; r_r : float; d_w : float }.

(** [State = Bundle<SE2, R3>]: element 0 is the pose, element 1 the three
    calibration coefficients.  [G] is the type of SE(2) elements. *)
Record Bundle (G : Type) : Type :=
  Build_Bundle { pose : G; calib : Vector3d }.
Arguments Build_Bundle {G}.
Arguments pose {G}.
Arguments calib {G}.

(** [X.element<1>().coeffs()(i) = v] *)
Definition set_calib {G : Type} (i : nat) (v : float) (X : Bundle G) : Bundle G :=
  let c := calib X in
  Build_Bundle (pose X)
    match i with
    | 0%nat => vec3 v (a1 c) (a2 c)
    | 1%nat => vec3 (a0 c) v (a2 c)
    | 2%nat => vec3 (a0 c) (a1 c) v
    | _ => c
    end.

(** [SystemModel]: the differential-drive model object, holding the
    kinematics it is built from and the control covariance that
    [setCovariance] installs. *)
Record SystemModel : Type :=
  Build_SystemModel { kinematics : Kinematics; control_covariance : Matrix2d }.

(** The measurement models the demo builds: a landmark seen from the pose
    ([Landmark2DMeasurementModel]) and a position fix
    ([DummyGPSMeasurementModel]), each with its noise covariance.  They act
    on the pose; the demo hands them to the library inside a
    [MeasurementModelBundleWrapper]. *)
Inductive MeasurementModel : Type :=
| Landmark2D (b : Vector2d) (R : Matrix2d)
| DummyGPS (R : Matrix2d).

(** The four estimators. *)
Inductive Variant : Type := EKF | SEKF | IEKF | UKFM.

(** What a filter holds by the shared contract ([setState], [setCovariance],
    [getState], [getCovariance]): a state and its covariance. *)
Record Filter (S : Type) : Type :=
  Build_Filter { getState : S; getCovariance : Matrix6d }.
Arguments Build_Filter {S}.
Arguments getState {S}.
Arguments getCovariance {S}.

Definition setState {S : Type} (X : S) (f : Filter S) : Filter S :=
  Build_Filter X (getCovariance f).
Definition setCovariance {S : Type} (P : Matrix6d) (f : Filter S) : Filter S :=
  Build_Filter (getState f) P.

(** ** The library the demo runs against *)

Record Library : Type := {
  (* manif *)
  SE2 : Type;
  SE2_Identity : SE2;
  SE2_make : float -> float -> float -> SE2;          (* SE2d(x, y, theta) *)
  SE2_rplus : SE2 -> Vector3d -> SE2;                 (* X + tau *)
  (* utils/rand.h *)
  Rng : Type;
  rng_start : Rng;
  randn6 : Rng -> Vector6d * Rng;                     (* randn<Array6d>() *)
  randn : Array2d -> Rng -> Vector2d * Rng;           (* randn(sigmas) *)
  (* kalmanif *)
  model_default_covariance : Matrix2d;
  model_call : SystemModel -> Bundle SE2 -> Control -> Bundle SE2;
  expect : MeasurementModel -> Bundle SE2 -> Vector2d;
  filter_default : Variant -> Filter (Bundle SE2);
  propagate : Variant -> SystemModel -> Filter (Bundle SE2) -> Control ->
              option float -> Filter (Bundle SE2);
  update : Variant -> MeasurementModel -> Filter (Bundle SE2) -> Vector2d ->
           Filter (Bundle SE2)
}.

Definition State (L : Library) : Type := Bundle (SE2 L).

(** [State::Identity()] *)
Definition State_Identity (L : Library) : State L :=
  Build_Bundle (SE2_Identity L) Eigen.Zero3.

(* ================================================================= *)
(** * Configuration *)

(** [double sqrtdt = std::sqrt(dt);] *)
Definition sqrtdt : float := PrimFloat.sqrt dt.

Definition var_wheel : float := 9e-5.       (* (rad/s)^2 *)
Definition var_gps : float := 6e-3.

(** The control and its noise. *)
Definition u_nom : Vector2d := vec2 0.5 0.35.           (* move along an arc *)
Definition u_sigmas : Array2d :=
  vec2 (PrimFloat.sqrt var_wheel) (PrimFloat.sqrt var_wheel).
Definition U : Matrix2d := Eigen.asDiagonal (Eigen.array_prod u_sigmas u_sigmas).

(** The beacons' measurements. *)
Definition y_sigmas : Array2d := vec2 0.01 0.01.
Definition R : Matrix2d := Eigen.asDiagonal (Eigen.array_prod y_sigmas y_sigmas).

Definition measurement_models : list MeasurementModel :=
  [ Landmark2D (vec2 2.0 0.0) R;
    Landmark2D (vec2 2.0 1.0) R;
    Landmark2D (vec2 2.0 (-1.0)) R ].

(** The GPS measurements. *)
Definition y_gps_sigmas : Array2d :=
  vec2 (PrimFloat.sqrt var_gps) (PrimFloat.sqrt var_gps).
Definition R_gps : Matrix2d :=
  Eigen.asDiagonal (Eigen.array_prod y_gps_sigmas y_gps_sigmas).

(** Wheels radii and separation. *)
Definition kinematic : Kinematics := Build_Kinematics 0.15 0.15 0.4.

Definition state_cov_init : Matrix6d :=
  Eigen.set_entry 5 5 0.00001
    (Eigen.set_entry 4 4 0.00001
      (Eigen.set_entry 3 3 0.00001
        (Eigen.set_entry 2 2 0.17
          (Eigen.set_entry 1 1 0.1
            (Eigen.set_entry 0 0 0.1 Eigen.Zero6))))).

Section Setup.

Variable L : Library.

(** [SystemModel system_model(kinematic); system_model.setCovariance(U);] *)
Definition SystemModel_make (k : Kinematics) : SystemModel :=
  Build_SystemModel k (model_default_covariance L).
Definition SystemModel_setCovariance (Q : Matrix2d) (m : SystemModel) : SystemModel :=
  Build_SystemModel (kinematics m) Q.
Definition system_model : SystemModel :=
  SystemModel_setCovariance U (SystemModel_make kinematic).

(** The simulated state: the identity with all three calibration
    coefficients set to 1. *)
Definition X_simulation_init : State L :=
  set_calib 2 1 (set_calib 1 1 (set_calib 0 1 (State_Identity L))).

(** [Vector6d n = randn<Array6d>();] the first draw of the generator. *)
Definition n : Vector6d := fst (randn6 L (rng_start L)).
Definition rng_after_setup : Rng L := snd (randn6 L (rng_start L)).

Definition X_init_coeffs : Vector6d :=
  Eigen.add_at 5 1 (Eigen.add_at 4 1 (Eigen.add_at 3 1
    (Eigen.mat_vec (Eigen.cwiseSqrt state_cov_init) n))).

Definition X_init : State L :=
  Build_Bundle
    (SE2_make L (nth 0 X_init_coeffs 0) (nth 1 X_init_coeffs 0) (nth 2 X_init_coeffs 0))
    (Eigen.tail3 X_init_coeffs).

(** [EKF ekf; ekf.setState(X_init); ekf.setCovariance(state_cov_init);] *)
Definition ekf_init : Filter (State L) :=
  setCovariance state_cov_init (setState X_init (filter_default L EKF)).
(** [SEKF sekf(X_init, state_cov_init);] and likewise IEKF, UKFM. *)
Definition sekf_init : Filter (State L) := Build_Filter X_init state_cov_init.
Definition iekf_init : Filter (State L) := Build_Filter X_init state_cov_init.
Definition ukfm_init : Filter (State L) := Build_Filter X_init state_cov_init.

End Setup.

(* ================================================================= *)
(** * The loop *)

(** The calls the loop makes into the library, in the order it makes them. *)
Inductive Trajectory : Type := Simulation | Unfiltered.

Inductive Call (L : Library) : Type :=
| Randn (sigmas : Array2d)                                (* randn(sigmas) *)
| Model (who : Trajectory) (f : SystemModel) (X : State L) (u : Control)
                                                          (* f(X, u) *)
| Expect (m : MeasurementModel) (X : State L)             (* wrapper{m}(X) *)
| Propagate (v : Variant) (f : SystemModel) (u : Control) (step : option float)
                                                          (* v.propagate(f, u [, step]) *)
| Update (v : Variant) (m : MeasurementModel) (y : Vector2d).
                                                          (* v.update(wrapper{m}, y) *)
Arguments Randn {L}.
Arguments Model {L}.
Arguments Expect {L}.
Arguments Propagate {L}.
Arguments Update {L}.

(** The variables of [main] that live across iterations. *)
Record Loop (L : Library) : Type := Build_Loop {
  t : float;
  X_simulation : State L;
  X_unfiltered : State L;
  measurements : list Vector2d;
  ekf : Filter (State L);
  sekf : Filter (State L);
  iekf : Filter (State L);
  ukfm : Filter (State L);
  rng : Rng L
}.
Arguments Build_Loop {L}.
Arguments t {L}.
Arguments X_simulation {L}.
Arguments X_unfiltered {L}.
Arguments measurements {L}.
Arguments ekf {L}.
Arguments sekf {L}.
Arguments iekf {L}.
Arguments ukfm {L}.
Arguments rng {L}.

(** [main]'s variables when the loop is entered.  The slots of
    [measurements] are written in every pass before they are read, so
    what they hold at first does not matter. *)
Definition loop_init (L : Library) : Loop L :=
  Build_Loop t_start
    (X_simulation_init L) (X_simulation_init L)
    (repeat (vec2 0 0) (length measurement_models))
    (ekf_init L) (sekf_init L) (iekf_init L) (ukfm_init L)
    (rng_after_setup L).

(** ** A monad for the loop body: state, and the log of library calls *)

Record Result (L : Library) (A : Type) : Type :=
  Build_Result { value : A; after : Loop L; calls : list (Call L) }.
Arguments Build_Result {L A}.
Arguments value {L A}.
Arguments after {L A}.
Arguments calls {L A}.

Definition M (L : Library) (A : Type) : Type := Loop L -> Result L A.

Definition ret {L : Library} {A : Type} (a : A) : M L A :=
  fun s => Build_Result a s [].

Definition bind {L : Library} {A B : Type} (m : M L A) (k : A -> M L B) : M L B :=
  fun s =>
    let r1 := m s in
    let r2 := k (value r1) (after r1) in
    Build_Result (value r2) (after r2) (calls r1 ++ calls r2).

Notation "x <- m ;; k" := (bind m (fun x => k))
  (at level 61, m at next level, right associativity).
Notation "m ;; k" := (bind m (fun _ => k))
  (at level 61, right associativity).

Definition gets {L : Library} {A : Type} (f : Loop L -> A) : M L A :=
  fun s => Build_Result (f s) s [].

Definition modify {L : Library} (f : Loop L -> Loop L) : M L unit :=
  fun s => Build_Result tt (f s) [].

Definition when {L : Library} (b : bool) (m : M L unit) : M L unit :=
  if b then m else ret tt.

(** [for (int i = 0; i < n; ++i) body(i)] *)
Fixpoint for_each {L : Library} (range : list nat) (body : nat -> M L unit) : M L unit :=
  match range with
  | [] => ret tt
  | i :: rest => body i ;; for_each rest body
  end.

Section Body.

Variable L : Library.

(** Assignments to [main]'s variables. *)
Definition set_t (v : float) (s : Loop L) : Loop L :=
  Build_Loop v (X_simulation s) (X_unfiltered s) (measurements s)
             (ekf s) (sekf s) (iekf s) (ukfm s) (rng s).
Definition set_X_simulation (v : State L) (s : Loop L) : Loop L :=
  Build_Loop (t s) v (X_unfiltered s) (measurements s)
             (ekf s) (sekf s) (iekf s) (ukfm s) (rng s).
Definition set_X_unfiltered (v : State L) (s : Loop L) : Loop L :=
  Build_Loop (t s) (X_simulation s) v (measurements s)
             (ekf s) (sekf s) (iekf s) (ukfm s) (rng s).
Definition set_measurements (v : list Vector2d) (s : Loop L) : Loop L :=
  Build_Loop (t s) (X_simulation s) (X_unfiltered s) v
             (ekf s) (sekf s) (iekf s) (ukfm s) (rng s).
Definition set_rng (v : Rng L) (s : Loop L) : Loop L :=
  Build_Loop (t s) (X_simulation s) (X_unfiltered s) (measurements s)
             (ekf s) (sekf s) (iekf s) (ukfm s) v.

Definition filter_of (v : Variant) (s : Loop L) : Filter (State L) :=
  match v with EKF => ekf s | SEKF => sekf s | IEKF => iekf s | UKFM => ukfm s end.

Definition set_filter (v : Variant) (f : Filter (State L)) (s : Loop L) : Loop L :=
  match v with
  | EKF => Build_Loop (t s) (X_simulation s) (X_unfiltered s) (measurements s)
                      f (sekf s) (iekf s) (ukfm s) (rng s)
  | SEKF => Build_Loop (t s) (X_simulation s) (X_unfiltered s) (measurements s)
                       (ekf s) f (iekf s) (ukfm s) (rng s)
  | IEKF => Build_Loop (t s) (X_simulation s) (X_unfiltered s) (measurements s)
                       (ekf s) (sekf s) f (ukfm s) (rng s)
  | UKFM => Build_Loop (t s) (X_simulation s) (X_unfiltered s) (measurements s)
                       (ekf s) (sekf s) (iekf s) f (rng s)
  end.

(** ** Calls into the library *)

(** [randn(sigmas)] *)
Definition call_randn (sigmas : Array2d) : M L Vector2d :=
  fun s =>
    let r := randn L sigmas (rng s) in
    Build_Result (fst r) (set_rng (snd r) s) [Randn sigmas].

(** [system_model(X, u)] *)
Definition call_model (who : Trajectory) (X : State L) (u : Control) : M L (State L) :=
  fun s =>
    Build_Result (model_call L (system_model L) X u) s
                 [Model who (system_model L) X u].

(** [MeasurementModelBundleWrapper{m}(X)] *)
Definition call_expect (m : MeasurementModel) (X : State L) : M L Vector2d :=
  fun s => Build_Result (expect L m X) s [Expect m X].

(** [filter.propagate(system_model, u)] and, with a step,
    [filter.propagate(system_model, u, dt)] *)
Definition call_propagate (v : Variant) (u : Control) (step : option float) : M L unit :=
  fun s =>
    Build_Result tt
      (set_filter v (propagate L v (system_model L) (filter_of v s) u step) s)
      [Propagate v (system_model L) u step].

(** [filter.update(MeasurementModelBundleWrapper{m}, y)] *)
Definition call_update (v : Variant) (m : MeasurementModel) (y : Vector2d) : M L unit :=
  fun s =>
    Build_Result tt
      (set_filter v (update L v m (filter_of v s) y) s)
      [Update v m y].

(** ** The loop body *)

(** The model changes: a heavy load squeezes the rubber tires. *)
Definition tyre_squeeze : M L unit :=
  modify (fun s => set_X_simulation (set_calib 0 0.85 (X_simulation s)) s) ;;
  modify (fun s => set_X_simulation (set_calib 1 0.85 (X_simulation s)) s) ;;
  modify (fun s => set_X_simulation (set_calib 2 1 (X_simulation s)) s).

(** The landmark model and the stored measurement of index [i]. *)
Definition model_at (i : nat) : MeasurementModel :=
  nth i measurement_models (DummyGPS R_gps).
Definition measurement_at (i : nat) (s : Loop L) : Vector2d :=
  nth i (measurements s) (vec2 0 0).

Definition landmark_indices : list nat := seq 0 (length measurement_models).

(** One pass of the loop body; [now] is the value of the loop variable
    [t], which the body reads and does not assign. *)
Definition body (now : float) : M L unit :=
  (* I. Simulation *)
  (* simulate noise *)
  u_noise <- call_randn (Eigen.array_quot u_sigmas sqrtdt) ;;
  let u_noisy := Eigen.plus u_nom u_noise in
  let u_simu := Eigen.scale u_nom dt in
  let u_est := Eigen.scale u_noisy dt in
  let u_unfilt := Eigen.scale u_noisy dt in
  when (loaded now) tyre_squeeze ;;
  (* first we move *)
  X <- gets X_simulation ;;
  X' <- call_model Simulation X u_simu ;;
  modify (set_X_simulation X') ;;
  (* then we measure all landmarks *)
  for_each landmark_indices (fun i =>
    X <- gets X_simulation ;;
    y <- call_expect (model_at i) X ;;
    y_noise <- call_randn y_sigmas ;;
    let y := Eigen.plus y y_noise in
    modify (fun s => set_measurements (Eigen.set_nth i y (measurements s)) s)) ;;
  (* II. Estimation *)
  (* first we move *)
  call_propagate EKF u_est None ;;
  call_propagate SEKF u_est None ;;
  call_propagate IEKF u_est (Some dt) ;;
  call_propagate UKFM u_est None ;;
  X <- gets X_unfiltered ;;
  X' <- call_model Unfiltered X u_unfilt ;;
  modify (set_X_unfiltered X') ;;
  (* then we correct using the measurements of each landmark *)
  when (landmark_due now)
    (for_each landmark_indices (fun i =>
      let measurement_model := model_at i in
      y <- gets (measurement_at i) ;;
      call_update EKF measurement_model y ;;
      call_update SEKF measurement_model y ;;
      call_update IEKF measurement_model y ;;
      call_update UKFM measurement_model y)) ;;
  (* GPS measurement update *)
  when (gps_due now)
    (let gps_measurement_model := DummyGPS R_gps in
     X <- gets X_simulation ;;
     y_gps <- call_expect gps_measurement_model X ;;
     y_gps_noise <- call_randn y_gps_sigmas ;;
     let y_gps := Eigen.plus y_gps y_gps_noise in
     call_update EKF gps_measurement_model y_gps ;;
     call_update SEKF gps_measurement_model y_gps ;;
     call_update IEKF gps_measurement_model y_gps ;;
     call_update UKFM gps_measurement_model y_gps)
  (* III. Results: the collector and the printing read [main]'s
     variables and assign none of them. *).

(** A full pass: the body at the current [t], then [t += dt]. *)
Definition step : M L unit :=
  now <- gets t ;;
  body now ;;
  modify (fun s => set_t (next_time (t s)) s).

(** [main]'s variables at the start of iteration [k]. *)
Fixpoint iteration (k : nat) : Loop L :=
  match k with
  | O => loop_init L
  | S j => after (step (iteration j))
  end.

(** The loop [for (double t = 0; t < 240; t += dt) { ... }], with the
    number of passes bounded by [fuel]: the result is [None] when the
    fuel runs out before the guard fails. *)
Fixpoint loop (fuel : nat) (s : Loop L) : option (Loop L * list (Call L)) :=
  match fuel with
  | O => None
  | S fuel' =>
      if running (t s) then
        let r := step s in
        match loop fuel' (after r) with
        | Some (s', cs) => Some (s', calls r ++ cs)
        | None => None
        end
      else Some (s, [])
  end.

Definition main (fuel : nat) : option (Loop L * list (Call L)) :=
  loop fuel (loop_init L).

End Body.

Arguments body {L}.
Arguments step {L}.
Arguments tyre_squeeze {L}.
Arguments filter_of {L}.

(* ================================================================= *)
(** * The differential-drive system model *)

Module DiffDrive.

(** Modelled from the spec: [DiffDriveSystemModel] is defined in
    kalmanif/system_models/diff_drive_system_model.h, which is not among
    the sources; the demo only builds it from [Kinematics] and calls it.
    The definitions below follow the specification.  Its section 3 makes
    the calibration block of the state the triple itself,
    c = (r_l, r_r, d_w), and step 1 of its section 4.2 extracts the
    triple from c. *)
Definition extract (c : Vector3d) : Kinematics :=
  Build_Kinematics (a0 c) (a1 c) (a2 c).

(** Modelled from the spec: the arc length of section 4.2, step 2. *)
Definition arc_length (k : Kinematics) (u : Control) : float :=
  0.5 * (r_l k * x0 u + r_r k * x1 u).

(** Modelled from the spec: the heading increment of section 4.2, step 2. *)
Definition heading_increment (k : Kinematics) (u : Control) : float :=
  (r_r k * x1 u - r_l k * x0 u) / d_w k.

(** Modelled from the spec: the pose tangent (dl, 0, dtheta) of section
    4.2, step 3, from the calibration block [c] and the control [u]. *)
Definition pose_tangent (c : Vector3d) (u : Control) : Vector3d :=
  let k := extract c in
  vec3 (arc_length k u) 0 (heading_increment k u).

(** Modelled from the spec: section 4.2, steps 4 and 5.  The composite
    tangent is (xi_P, 0, 0, 0) and the next state is X + xi: the pose
    moves by the library's right-plus [rplus] on SE(2), the calibration
    block by the vector sum with zero.  The model object [m] is not read:
    by section 6 the [Kinematics] triple it is built from only seeds the
    block where calibration is a constant, and the control covariance
    enters the filters' covariance, not the state. *)
Definition apply {G : Type} (rplus : G -> Vector3d -> G)
    (m : SystemModel) (X : Bundle G) (u : Control) : Bundle G :=
  Build_Bundle (rplus (pose X) (pose_tangent (calib X) u))
               (Eigen.plus3 (calib X) Eigen.Zero3).

End DiffDrive.

(** Modelled from the spec: a library whose system model carries the
    calibration block over, adding the zero increment to it (section 4.2,
    step 4: the calibration does not move with the deterministic
    motion).  Nothing is asked of what the model does to the pose. *)
Definition model_keeps_calibration (L : Library) : Prop :=
  forall m X u, calib (model_call L m X u) = Eigen.plus3 (calib X) Eigen.Zero3.

(** Modelled from the spec: a library whose system model is the model of
    section 4.2, on the library's own right-plus. *)
Definition model_is_diff_drive (L : Library) : Prop :=
  forall m X u, model_call L m X u = DiffDrive.apply (SE2_rplus L) m X u.

(** ** A stand-in library

    A flat pose (x, y, theta) moved by plain addition, a generator that
    always draws zero, and filters that predict with the model above and
    ignore measurements.  It stands in for the real library where a
    statement is tried on a concrete run. *)
Module Plain.

Definition observe (m : MeasurementModel) (X : Bundle Vector3d) : Vector2d :=
  match m with
  | Landmark2D b _ => vec2 (x0 b - a0 (pose X)) (x1 b - a1 (pose X))
  | DummyGPS _ => vec2 (a0 (pose X)) (a1 (pose X))
  end.

Definition library : Library := {|
  SE2 := Vector3d;
  SE2_Identity := Eigen.Zero3;
  SE2_make := vec3;
  SE2_rplus := Eigen.plus3;
  Rng := nat;
  rng_start := O;
  randn6 := fun g => (repeat 0 6, S g);
  randn := fun _ g => (vec2 0 0, S g);
  model_default_covariance := Eigen.scaled_identity 1;
  model_call := DiffDrive.apply Eigen.plus3;
  expect := observe;
  filter_default := fun _ => Build_Filter (Build_Bundle Eigen.Zero3 Eigen.Zero3) Eigen.Zero6;
  propagate := fun _ m f u _ => setState (DiffDrive.apply Eigen.plus3 m (getState f) u) f;
  update := fun _ _ f _ => f
  |}.

End Plain.

(* ================================================================= *)
(** * The values of one iteration *)

Section Values.

Variable L : Library.

(** The control-noise sample of the iteration that starts in [s], and the
    controls computed from it. *)
Definition u_noise (s : Loop L) : Vector2d :=
  fst (randn L (Eigen.array_quot u_sigmas sqrtdt) (rng s)).
Definition u_noisy (s : Loop L) : Vector2d := Eigen.plus u_nom (u_noise s).
Definition u_simu : Control := Eigen.scale u_nom dt.
Definition u_est (s : Loop L) : Control := Eigen.scale (u_noisy s) dt.

(** The simulated state after all three assignments of the load event. *)
Definition squeezed (X : State L) : State L :=
  set_calib 2 1 (set_calib 1 0.85 (set_calib 0 0.85 X)).

(** The simulated state the model is called on, and the one it returns. *)
Definition X_driven (s : Loop L) : State L :=
  if loaded (t s) then squeezed (X_simulation s) else X_simulation s.
Definition X_moved (s : Loop L) : State L :=
  model_call L (system_model L) (X_driven s) u_simu.

(** The generator after the control noise and [i] landmark noises. *)
Fixpoint rng_at (s : Loop L) (i : nat) : Rng L :=
  match i with
  | O => snd (randn L (Eigen.array_quot u_sigmas sqrtdt) (rng s))
  | S j => snd (randn L y_sigmas (rng_at s j))
  end.

(** The noisy measurement of landmark [i], and the noisy position fix. *)
Definition y_landmark (s : Loop L) (i : nat) : Vector2d :=
  Eigen.plus (expect L (model_at i) (X_moved s))
             (fst (randn L y_sigmas (rng_at s i))).
Definition y_gps (s : Loop L) : Vector2d :=
  Eigen.plus (expect L (DummyGPS R_gps) (X_moved s))
             (fst (randn L y_gps_sigmas (rng_at s 3))).

(** What every filter is corrected with in the iteration: the landmark
    measurements when their gate is open, then the position fix when its
    gate is open. *)
Definition corrections (s : Loop L) : list (MeasurementModel * Vector2d) :=
  (if landmark_due (t s)
   then map (fun i => (model_at i, y_landmark s i)) landmark_indices
   else [])
  ++ (if gps_due (t s) then [(DummyGPS R_gps, y_gps s)] else []).

(** The step argument a variant's [propagate] is called with. *)
Definition step_argument (v : Variant) : option float :=
  match v with IEKF => Some dt | _ => None end.

(** The calls of the simulation part of an iteration. *)
Definition simulation_calls (s : Loop L) : list (Call L) :=
  Randn (Eigen.array_quot u_sigmas sqrtdt)
  :: Model Simulation (system_model L) (X_driven s) u_simu
  :: flat_map (fun i => [Expect (model_at i) (X_moved s); Randn y_sigmas])
              landmark_indices.

(** The calls of the prediction part. *)
Definition prediction_calls (s : Loop L) : list (Call L) :=
  map (fun v => Propagate v (system_model L) (u_est s) (step_argument v))
      [EKF; SEKF; IEKF; UKFM]
  ++ [Model Unfiltered (system_model L) (X_unfiltered s) (u_est s)].

(** The calls of one correction, filter after filter. *)
Definition update_calls (m : MeasurementModel) (y : Vector2d) : list (Call L) :=
  map (fun v => Update v m y) [EKF; SEKF; IEKF; UKFM].

(** The calls of the correction part. *)
Definition correction_calls (s : Loop L) : list (Call L) :=
  (if landmark_due (t s)
   then flat_map (fun i => update_calls (model_at i) (y_landmark s i)) landmark_indices
   else [])
  ++ (if gps_due (t s)
      then Expect (DummyGPS R_gps) (X_moved s) :: Randn y_gps_sigmas
           :: update_calls (DummyGPS R_gps) (y_gps s)
      else []).

(** The vector of stored measurements has one slot per landmark. *)
Definition slots_ok (s : Loop L) : Prop :=
  length (measurements s) = length measurement_models.

(** A filter after the iteration: predicted once, then corrected with
    [corrections], in that order. *)
Definition fed (v : Variant) (s : Loop L) : Filter (State L) :=
  fold_left (fun f my => update L v (fst my) f (snd my))
            (corrections s)
            (propagate L v (system_model L) (filter_of v s) (u_est s) (step_argument v)).

(** The generator at the end of the iteration. *)
Definition rng_end (s : Loop L) : Rng L :=
  if gps_due (t s) then snd (randn L y_gps_sigmas (rng_at s 3)) else rng_at s 3.

(** [main]'s variables after a full pass that starts in [s]. *)
Definition next_state (s : Loop L) : Loop L :=
  Build_Loop (next_time (t s))
    (X_moved s)
    (model_call L (system_model L) (X_unfiltered s) (u_est s))
    (map (y_landmark s) landmark_indices)
    (fed EKF s) (fed SEKF s) (fed IEKF s) (fed UKFM s)
    (rng_end s).

End Values.

Arguments u_noise {L}.
Arguments u_noisy {L}.
Arguments u_est {L}.
Arguments squeezed {L}.
Arguments X_driven {L}.
Arguments X_moved {L}.
Arguments rng_at {L}.
Arguments y_landmark {L}.
Arguments y_gps {L}.
Arguments corrections {L}.
Arguments simulation_calls {L}.
Arguments prediction_calls {L}.
Arguments update_calls {L}.
Arguments correction_calls {L}.
Arguments slots_ok {L}.
Arguments fed {L}.
Arguments rng_end {L}.
Arguments next_state {L}.

(* ================================================================= *)
(** * Reading a run *)

(** The passes of the loop, as the binary64 clock counts them: the load
    test [t > 120] fails in the first [nominal_passes] passes and holds
    from then on, and the guard [t < 240] holds for [total_passes] passes. *)
Definition nominal_passes : nat := 12000.
Definition loaded_passes : nat := 12001.
Definition total_passes : nat := 24001.

(** The controls of the calls that reach the process model: the direct
    calls of the simulation and of the unfiltered baseline, and the
    filters' [propagate]. *)
Definition handed_controls {L : Library} (cs : list (Call L)) : list Control :=
  flat_map (fun c => match c with
                     | Model _ _ _ u => [u]
                     | Propagate _ _ u _ => [u]
                     | _ => []
                     end) cs.

Definition Variant_eqb (v w : Variant) : bool :=
  match v, w with
  | EKF, EKF | SEKF, SEKF | IEKF, IEKF | UKFM, UKFM => true
  | _, _ => false
  end.


(** The calls that move the trajectory [who] through the model directly. *)
Definition moves_of {L : Library} (who : Trajectory) (cs : list (Call L)) : list (Call L) :=
  filter (fun c => match c, who with
                   | Model Simulation _ _ _, Simulation => true
                   | Model Unfiltered _ _ _, Unfiltered => true
                   | _, _ => false
                   end) cs.

(** The call takes the system model with control covariance [Q], when it
    takes a system model at all. *)
Definition with_covariance {L : Library} (Q : Matrix2d) (c : Call L) : Prop :=
  match c with
  | Model _ f _ _ => control_covariance f = Q
  | Propagate _ f _ _ => control_covariance f = Q
  | _ => True
  end.

(** The landmark updates among the calls. *)
Definition landmark_updates {L : Library} (cs : list (Call L)) : list (Call L) :=
  filter (fun c => match c with
                   | Update _ (Landmark2D _ _) _ => true
                   | _ => false
                   end) cs.

(** The number of passes, among the 100 that start at time [t0], in which
    the landmark gate is open. *)
Definition landmark_passes_in_a_second (t0 : float) : nat :=
  count_times landmark_due 100 t0.

Definition about_50 (c : nat) : bool := ((49 <=? c) && (c <=? 51))%nat.

(** The count is about 50 in each of [m] consecutive seconds, the first
    of which starts at time [t0]. *)
Fixpoint check_seconds (m : nat) (t0 : float) : bool :=
  match m with
  | O => true
  | S m' => about_50 (landmark_passes_in_a_second t0)
            && check_seconds m' (Nat.iter 100 next_time t0)
  end.

(** The calls of the passes [k], [k + 1], ..., [k + n - 1]. *)
Definition calls_of_passes (L : Library) (k n : nat) : list (Call L) :=
  flat_map (fun j => calls (step (iteration L j))) (seq k n).

(** ** What else a pass shows *)

(** The standard deviations the generator is called with, in order. *)
Definition randn_sigmas {L : Library} (cs : list (Call L)) : list Array2d :=
  flat_map (fun c => match c with Randn sigmas => [sigmas] | _ => [] end) cs.

(** The simulated measurements: the model and the state of each. *)
Definition expectations {L : Library} (cs : list (Call L))
    : list (MeasurementModel * State L) :=
  flat_map (fun c => match c with Expect m X => [(m, X)] | _ => [] end) cs.

(** The position-fix updates among the calls. *)
Definition gps_updates {L : Library} (cs : list (Call L)) : list (Call L) :=
  filter (fun c => match c with
                   | Update _ (DummyGPS _) _ => true
                   | _ => false
                   end) cs.

(** A generator that draws no control noise. *)
Definition silent_control_noise (L : Library) : Prop :=
  forall g : Rng L, fst (randn L (Eigen.array_quot u_sigmas sqrtdt) g) = vec2 0 0.

(** The sum of [f] over the times of [n] consecutive passes, the first at
    time [t0]. *)
Fixpoint sum_times (f : float -> nat) (n : nat) (t0 : float) : nat :=
  match n with
  | O => O
  | S n' => f t0 + sum_times f n' (next_time t0)
  end.

(** A check of [n] consecutive passes against their numbers, the first
    being pass [k] at time [t0]. *)
Fixpoint check_passes (P : Z -> float -> bool) (n : nat) (k : Z) (t0 : float) : bool :=
  match n with
  | O => true
  | S n' => P k t0 && check_passes P n' (k + 1)%Z (next_time t0)
  end.

(** The tick of pass [k] is [k] or [k - 1]. *)
Definition tick_lags_by_one (k : Z) (t0 : float) : bool :=
  ((tick t0 =? k) || (tick t0 =? k - 1))%Z.

(** The GPS gate is closed unless [k] is 0 or 1 modulo 10. *)
Definition gps_near_its_grid (k : Z) (t0 : float) : bool :=
  negb (gps_due t0) || (k mod 10 =? 0)%Z || (k mod 10 =? 1)%Z.

(** The clock of pass [k] is within 7.4e-11 of [k / 100] and below the
    next one. *)
Definition clock_is_close (k : Z) (t0 : float) : bool :=
  (abs (t0 - Double.of_int k / 100) <? 7.4e-11) && (t0 <? next_time t0).

(** The number of passes, among the 100 that start at time [t0], in which
    the GPS gate is open. *)
Definition gps_passes_in_a_second (t0 : float) : nat :=
  count_times gps_due 100 t0.

Definition about_10 (c : nat) : bool := ((9 <=? c) && (c <=? 11))%nat.

Fixpoint check_gps_seconds (m : nat) (t0 : float) : bool :=
  match m with
  | O => true
  | S m' => about_10 (gps_passes_in_a_second t0)
            && check_gps_seconds m' (Nat.iter 100 next_time t0)
  end.

(** The measurements filter [v] is corrected with, in order. *)
Definition updates_to {L : Library} (v : Variant) (cs : list (Call L))
    : list (MeasurementModel * Vector2d) :=
  flat_map (fun c => match c with
                     | Update w m y => if Variant_eqb v w then [(m, y)] else []
                     | _ => []
                     end) cs.

(** The controls filter [v] is propagated with, in order. *)
Definition propagates_to {L : Library} (v : Variant) (cs : list (Call L))
    : list Control :=
  flat_map (fun c => match c with
                     | Propagate w _ u _ => if Variant_eqb v w then [u] else []
                     | _ => []
                     end) cs.

(** How many of [n] consecutive passes, the first being pass [k] at time
    [t0], satisfy [P]. *)
Fixpoint count_passes (P : Z -> float -> bool) (n : nat) (k : Z) (t0 : float) : nat :=
  match n with
  | O => O
  | S n' => (if P k t0 then 1 else 0) + count_passes P n' (k + 1)%Z (next_time t0)
  end.

(** The landmark gate of pass [k] is not what the grid of even passes
    says; the GPS gate is not what the grid of multiples of 10 says. *)
Definition landmark_off_grid (k : Z) (t0 : float) : bool :=
  xorb (landmark_due t0) (k mod 2 =? 0)%Z.
Definition gps_off_grid (k : Z) (t0 : float) : bool :=
  xorb (gps_due t0) (k mod 10 =? 0)%Z.

(** ** The results of a pass *)

(** One call [collector.collect(name, X_true, X_est, cov, t)]. *)
Record Sample (L : Library) : Type := Build_Sample {
  label : string;
  truth : SE2 L;
  estimate : SE2 L;
  block : list (list float);
  stamp : float
}.
Arguments Build_Sample {L}.
Arguments label {L}.
Arguments truth {L}.
Arguments estimate {L}.
Arguments block {L}.
Arguments stamp {L}.

(** [M.topLeftCorner<3,3>()] *)
Definition topLeftCorner3 (M : Matrix6d) : list (list float) :=
  map (firstn 3) (firstn 3 M).

(** [Covariance<SE2d>::Zero()] *)
Definition Zero3x3 : list (list float) := repeat (repeat 0 3) 3.

(** III. Results: the five calls of [collector.collect] at the end of the
    loop body, on [main]'s variables as the corrections left them. *)
Definition collect_results {L : Library} (s : Loop L) : list (Sample L) :=
  let X_e := getState (ekf s) in
  let X_s := getState (sekf s) in
  let X_i := getState (iekf s) in
  let X_u := getState (ukfm s) in
  [ Build_Sample "EKF" (pose (X_simulation s)) (pose X_e)
      (topLeftCorner3 (getCovariance (ekf s))) (t s);
    Build_Sample "SEKF" (pose (X_simulation s)) (pose X_s)
      (topLeftCorner3 (getCovariance (sekf s))) (t s);
    Build_Sample "IEKF" (pose (X_simulation s)) (pose X_i)
      (topLeftCorner3 (getCovariance (iekf s))) (t s);
    Build_Sample "UKFM" (pose (X_simulation s)) (pose X_u)
      (topLeftCorner3 (getCovariance (ukfm s))) (t s);
    Build_Sample "UNFI" (pose (X_simulation s)) (pose (X_unfiltered s))
      Zero3x3 (t s) ].

(** What pass [k] hands to the collector: the results are collected after
    the body of the pass and before [t += dt]. *)
Definition results_of_pass (L : Library) (k : nat) : list (Sample L) :=
  let s := iteration L k in
  collect_results (after (body (t s) s)).

(** The name a filter is collected under. *)
Definition label_of (v : Variant) : string :=
  match v with
  | EKF => "EKF" | SEKF => "SEKF" | IEKF => "IEKF" | UKFM => "UKFM"
  end.

(* ================================================================= *)
(** * Facts about one iteration *)

Section StepFacts.

Variable L : Library.

(** Runs the loop monad on a state whose fields are all given. *)
Ltac run_body :=
  cbv beta delta
    [body step when tyre_squeeze bind ret gets modify for_each landmark_indices
     seq length measurement_models call_randn call_model call_expect
     call_propagate call_update value after calls app set_t set_rng
     set_X_simulation set_X_unfiltered set_measurements set_filter filter_of
     t X_simulation X_unfiltered measurements ekf sekf iekf ukfm rng
     Eigen.set_nth measurement_at nth]
    iota zeta.

(** Case analysis on the load test and the two gates at time [t0]. *)
Ltac by_gates t0 :=
  let Hl := fresh "Hl" in
  let Hlm := fresh "Hlm" in
  let Hg := fresh "Hg" in
  destruct (loaded t0) eqn:Hl, (landmark_due t0) eqn:Hlm, (gps_due t0) eqn:Hg;
  run_body; rewrite ?Hl, ?Hlm, ?Hg; run_body; reflexivity.

Lemma body_calls (s : Loop L) :
  slots_ok s ->
  calls (body (t s) s) = simulation_calls s ++ prediction_calls s ++ correction_calls s.
Proof.
  destruct s as [t0 Xs Xu ms f1 f2 f3 f4 g].
  unfold slots_ok. cbn [measurements t]. intros Hlen.
  destruct ms as [|y0 [|y1 [|y2 [|y3 ys]]]]; try discriminate.
  unfold simulation_calls, prediction_calls, correction_calls,
    y_landmark, y_gps, X_moved, X_driven.
  cbn [t]. by_gates t0.
Qed.

Lemma step_calls (s : Loop L) :
  slots_ok s ->
  calls (step s) = simulation_calls s ++ prediction_calls s ++ correction_calls s.
Proof.
  intros Hs. rewrite <- (body_calls s Hs).
  unfold step, bind, gets, modify. cbn [value after calls].
  now rewrite app_nil_r.
Qed.

Lemma step_after (s : Loop L) :
  slots_ok s -> after (step s) = next_state s.
Proof.
  destruct s as [t0 Xs Xu ms f1 f2 f3 f4 g].
  unfold slots_ok. cbn [measurements t]. intros Hlen.
  destruct ms as [|y0 [|y1 [|y2 [|y3 ys]]]]; try discriminate.
  unfold next_state, fed, corrections, rng_end, y_landmark, y_gps, X_moved, X_driven.
  cbn [t fold_left map]. by_gates t0.
Qed.

Lemma next_state_slots (s : Loop L) : slots_ok (next_state s).
Proof. reflexivity. Qed.

Lemma iteration_slots (k : nat) : slots_ok (iteration L k).
Proof.
  induction k as [|k IH]; [reflexivity|].
  cbn [iteration]. rewrite (step_after _ IH). apply next_state_slots.
Qed.

Lemma iteration_succ (k : nat) :
  iteration L (S k) = next_state (iteration L k).
Proof. cbn [iteration]. apply step_after, iteration_slots. Qed.

Lemma iteration_time (k : nat) : t (iteration L k) = time_at k.
Proof.
  induction k as [|k IH]; [reflexivity|].
  rewrite iteration_succ. cbn [next_state t time_at]. now rewrite IH.
Qed.

End StepFacts.

(* ================================================================= *)
(** * Facts about the clock *)

Section ClockFacts.

Context {T : Type} `{Arith T}.

Lemma time_at_add (a j : nat) :
  time_at (a + j) = Nat.iter j next_time (time_at a) :> T.
Proof.
  induction j as [|j IH].
  - now rewrite Nat.add_0_r.
  - rewrite Nat.add_succ_r. cbn [time_at Nat.iter]. now rewrite IH.
Qed.

Lemma check_times_spec (P : T -> bool) (n : nat) :
  forall t0 : T, check_times P n t0 = true ->
  forall j, (j < n)%nat -> P (Nat.iter j next_time t0) = true.
Proof.
  induction n as [|n IH]; intros t0 Hc j Hj; [lia|].
  cbn [check_times] in Hc. apply andb_prop in Hc as [H0 Hrest].
  destruct j as [|j]; [exact H0|].
  rewrite Nat.iter_succ_r. apply IH; [exact Hrest | lia].
Qed.

(** A check that passed from iteration [a] on holds at every iteration
    of the range. *)
Lemma check_times_range (P : T -> bool) (a n k : nat) :
  check_times P n (time_at a) = true ->
  (a <= k < a + n)%nat -> P (time_at k) = true.
Proof.
  intros Hc Hk.
  replace k with (a + (k - a))%nat by lia.
  rewrite time_at_add. apply (check_times_spec P n); [exact Hc | lia].
Qed.

End ClockFacts.

(** ** The binary64 clock *)

Module Clock64.

Lemma nominal_passes_Z : Z.of_nat nominal_passes = 12000%Z.
Proof. vm_compute. reflexivity. Qed.

Lemma loaded_passes_Z : Z.of_nat loaded_passes = 12001%Z.
Proof. vm_compute. reflexivity. Qed.

Lemma total_passes_Z : Z.of_nat total_passes = 24001%Z.
Proof. vm_compute. reflexivity. Qed.

(** Arithmetic on pass numbers. *)
Ltac passes :=
  pose proof nominal_passes_Z; pose proof loaded_passes_Z;
  pose proof total_passes_Z; lia.

(** The first 12000 passes run unloaded. *)
Lemma unloaded_at_first :
  check_times (fun t0 : float => negb (loaded t0) && running t0)
              nominal_passes t_start = true.
Proof. vm_compute. reflexivity. Qed.

(** From pass 12000 to pass 24000 the load is on and the loop goes on. *)
Lemma loaded_then :
  check_times (fun t0 : float => loaded t0 && running t0)
              loaded_passes (time_at nominal_passes) = true.
Proof. vm_compute. reflexivity. Qed.

(** The guard fails for the first time when pass 24001 would start. *)
Lemma stops : running (time_at total_passes : float) = false.
Proof. vm_compute. reflexivity. Qed.

Lemma loaded_iff (k : nat) :
  (k < total_passes)%nat ->
  loaded (time_at k : float) = negb (k <? nominal_passes)%nat.
Proof.
  intros Hk. destruct (Nat.ltb_spec k nominal_passes) as [Hlt|Hge]; cbn [negb].
  - pose proof (check_times_range _ 0 nominal_passes k unloaded_at_first) as Hc.
    cbv beta in Hc. apply negb_true_iff.
    apply andb_prop in Hc as [Hc _]; [exact Hc | passes].
  - pose proof (check_times_range _ nominal_passes loaded_passes k loaded_then) as Hc.
    cbv beta in Hc. apply andb_prop in Hc as [Hc _]; [exact Hc | passes].
Qed.

Lemma running_before_stop (k : nat) :
  (k < total_passes)%nat -> running (time_at k : float) = true.
Proof.
  intros Hk. destruct (Nat.ltb_spec k nominal_passes) as [Hlt|Hge].
  - pose proof (check_times_range _ 0 nominal_passes k unloaded_at_first) as Hc.
    cbv beta in Hc. apply andb_prop in Hc as [_ Hc]; [exact Hc | passes].
  - pose proof (check_times_range _ nominal_passes loaded_passes k loaded_then) as Hc.
    cbv beta in Hc. apply andb_prop in Hc as [_ Hc]; [exact Hc | passes].
Qed.

End Clock64.

(* ================================================================= *)
(** * The estimators start from one pair *)

(** C7.  Each of the four estimators (EKF, SEKF, IEKF, UKFM) enters the
    loop holding the same pair: the state [X_init] and the covariance
    [state_cov_init].  The EKF gets it through [setState] and
    [setCovariance], the other three through their constructors; the
    covariance is diag(0.1, 0.1, 0.17, 1e-5, 1e-5, 1e-5). *)
Theorem estimators_share_initial_pair (L : Library) (v : Variant) :
  getState (filter_of v (loop_init L)) = X_init L
  /\ getCovariance (filter_of v (loop_init L)) = state_cov_init
  /\ ekf (loop_init L)
     = setCovariance state_cov_init (setState (X_init L) (filter_default L EKF))
  /\ (v <> EKF -> filter_of v (loop_init L) = Build_Filter (X_init L) state_cov_init)
  /\ state_cov_init
     = [ [0.1; 0; 0; 0; 0; 0];
         [0; 0.1; 0; 0; 0; 0];
         [0; 0; 0.17; 0; 0; 0];
         [0; 0; 0; 0.00001; 0; 0];
         [0; 0; 0; 0; 0.00001; 0];
         [0; 0; 0; 0; 0; 0.00001] ].
Proof.
  repeat split.
  - destruct v; reflexivity.
  - destruct v; reflexivity.
  - destruct v; intros Hv; [contradiction Hv|..]; reflexivity.
Qed.

(* ================================================================= *)
(** * The wheel noise *)

(** C8, as stated, fails: the standard deviation of the wheel noise is not
    9.4e-3 and the variance [var_wheel] is not its square 8.836e-5. *)
Lemma wheel_sigma_is_not_0p0094 :
  x0 u_sigmas <> 0.0094 /\ x1 u_sigmas <> 0.0094 /\ var_wheel <> 0.0094 * 0.0094.
Proof.
  split; [|split]; intros E.
  - apply (f_equal (fun x => PrimFloat.ltb 0.00941 x)) in E.
    vm_compute in E. discriminate E.
  - apply (f_equal (fun x => PrimFloat.ltb 0.00941 x)) in E.
    vm_compute in E. discriminate E.
  - apply (f_equal (fun x => PrimFloat.ltb 0.0000885 x)) in E.
    vm_compute in E. discriminate E.
Qed.

(** C8, amended.  The variance of the wheel noise is [var_wheel] = 9e-5
    (rad/s)^2 and the per-wheel standard deviation is its square root,
    0.009486832980505138: above 9.48e-3 and below 9.49e-3, so 9.4e-3 is the
    value cut to two digits, and [var_wheel] exceeds 0.0094^2 = 8.836e-5. *)
Theorem wheel_sigma_is_sqrt_9e5 :
  var_wheel = 9e-5
  /\ u_sigmas = vec2 (PrimFloat.sqrt var_wheel) (PrimFloat.sqrt var_wheel)
  /\ PrimFloat.sqrt var_wheel = 0.009486832980505138
  /\ (0.00948 <? x0 u_sigmas) = true
  /\ (x0 u_sigmas <? 0.00949) = true
  /\ 0.0094 * 0.0094 = 8.836e-5
  /\ (0.0094 * 0.0094 <? var_wheel) = true.
Proof. repeat split. Qed.

(* ================================================================= *)
(** * What the calibration block holds *)



(* ================================================================= *)
(** * The controls handed to the model *)

(** C1.  In every pass the controls that reach the process model are, in
    order: [u_nom * dt] for the simulation, then [(u_nom + u_noise) * dt]
    for the four filters and for the unfiltered baseline.  Each is a
    wheel-rate vector (nominal or noisy) multiplied by [dt] once:
    [u_nom * dt] is (0.005, 0.0035) up to rounding, neither [u_nom] itself
    nor [u_nom * dt * dt]. *)
Theorem controls_are_rates_times_dt (L : Library) (k : nat) :
  let s := iteration L k in
  handed_controls (calls (step s))
  = Eigen.scale u_nom dt :: repeat (Eigen.scale (Eigen.plus u_nom (u_noise s)) dt) 5
  /\ u_nom = vec2 0.5 0.35
  /\ dt = 0.01
  /\ Eigen.scale u_nom dt = vec2 0.005 0.0034999999999999996
  /\ Eigen.scale u_nom dt <> u_nom
  /\ Eigen.scale u_nom dt <> Eigen.scale (Eigen.scale u_nom dt) dt.
Proof.
  intros s. split.
  - rewrite (step_calls L s (iteration_slots L k)).
    unfold simulation_calls, prediction_calls, correction_calls.
    destruct (landmark_due (t s)), (gps_due (t s)); reflexivity.
  - do 3 (split; [reflexivity|]).
    split; intros E; apply (f_equal (fun u => PrimFloat.eqb (x0 u) 0.005)) in E;
      vm_compute in E; discriminate E.
Qed.

(* ================================================================= *)
(** * The filters and the baseline are fed alike *)


(* ================================================================= *)
(** * The control noise and the covariance of the model *)

(** C3.  Every pass starts by drawing the control noise with the
    standard deviations [u_sigmas / sqrtdt], that is sqrt(var_wheel) /
    sqrt(dt) per wheel, and multiplies the noisy control by [dt].  The
    system model is built once, before the loop, with
    [setCovariance(U)], and every call of the pass takes it with that
    covariance.  [U] is diag(s * s, s * s) for s = sqrt(var_wheel) and
    [var_wheel] = 9e-5 (rad/s)^2: in binary64 the product is
    8.9999999999999992e-05, one unit in the last place (2^-66) away from
    9e-5.  The convention is that of a rate: the deviation handed to the
    generator, once multiplied by [dt], has the square [U * dt] (to
    within 2e-22), a hundredth of [U].  In the calls of the pass: the
    first draw is made with sqrt(9e-5) / sqrt(dt) per wheel, and with
    [noise] the sample it returns, every filter is propagated, and the
    baseline moved, with the control ((0.5 + noise_l) dt,
    (0.35 + noise_r) dt). *)
Theorem control_noise_is_a_rate (L : Library) (k : nat) :
  let s := iteration L k in
  let sd := x0 (Eigen.array_quot u_sigmas sqrtdt) * dt in
  let noise :=
    fst (randn L (vec2 (PrimFloat.sqrt 9e-5 / PrimFloat.sqrt dt)
                       (PrimFloat.sqrt 9e-5 / PrimFloat.sqrt dt)) (rng s)) in
  hd_error (calls (step s)) = Some (Randn (Eigen.array_quot u_sigmas sqrtdt))
  /\ u_noise s = fst (randn L (Eigen.array_quot u_sigmas sqrtdt) (rng s))
  /\ u_est s = Eigen.scale (Eigen.plus u_nom (u_noise s)) dt
  /\ Eigen.array_quot u_sigmas sqrtdt
     = vec2 (PrimFloat.sqrt var_wheel / PrimFloat.sqrt dt)
            (PrimFloat.sqrt var_wheel / PrimFloat.sqrt dt)
  /\ system_model L = SystemModel_setCovariance U (SystemModel_make L kinematic)
  /\ Forall (with_covariance U) (calls (step s))
  /\ U = Eigen.scaled_identity (PrimFloat.sqrt var_wheel * PrimFloat.sqrt var_wheel)
  /\ var_wheel = 9e-5
  /\ m00 U = 8.9999999999999992e-05
  /\ abs (m00 U - 9e-5) = 0x1p-66
  /\ (abs (sd * sd - m00 U * dt) <? 2e-22) = true
  /\ (abs (m00 U / (sd * sd) - 100) <? 1e-13) = true
  /\ (forall v : Variant,
        propagates_to v (calls (step s))
        = [vec2 ((0.5 + x0 noise) * dt) ((0.35 + x1 noise) * dt)])
  /\ moves_of Unfiltered (calls (step s))
     = [Model Unfiltered (system_model L) (X_unfiltered s)
          (vec2 ((0.5 + x0 noise) * dt) ((0.35 + x1 noise) * dt))]
  /\ randn_sigmas (calls (step s))
     = vec2 (PrimFloat.sqrt 9e-5 / PrimFloat.sqrt dt)
            (PrimFloat.sqrt 9e-5 / PrimFloat.sqrt dt)
       :: tl (randn_sigmas (calls (step s))).
Proof.
  intros s sd noise. pose proof (iteration_slots L k) as Hs. fold s in Hs.
  rewrite (step_calls L s Hs).
  split; [reflexivity|]. split; [reflexivity|]. split; [reflexivity|].
  split; [reflexivity|]. split; [reflexivity|].
  split.
  { unfold simulation_calls, prediction_calls, correction_calls.
    destruct (landmark_due (t s)), (gps_due (t s));
      cbn [app flat_map map landmark_indices seq List.length measurement_models update_calls];
      repeat (constructor; try exact I; try reflexivity). }
  do 6 (split; [reflexivity|]).
  unfold simulation_calls, prediction_calls, correction_calls.
  split; [|split].
  - intros v. destruct v, (landmark_due (t s)), (gps_due (t s)); reflexivity.
  - destruct (landmark_due (t s)), (gps_due (t s)); reflexivity.
  - destruct (landmark_due (t s)), (gps_due (t s)); reflexivity.
Qed.

(* ================================================================= *)
(** * The two gates *)

(** ** In binary64 *)

(** The periods of the two gates, in ticks. *)
Lemma gate_periods :
  to_int (100 / Double.of_int landmark_freq) = 2%Z
  /\ to_int (100 / Double.of_int gps_freq) = 10%Z.
Proof. split; reflexivity. Qed.

(** Whenever the GPS gate is open the landmark gate is open too. *)
Lemma gps_due_landmark_due (t0 : float) :
  gps_due t0 = true -> landmark_due t0 = true.
Proof.
  unfold gps_due, landmark_due.
  change (to_int (div (of_int 100) (of_int landmark_freq) : float)) with 2%Z.
  change (to_int (div (of_int 100) (of_int gps_freq) : float)) with 10%Z.
  rewrite !Z.eqb_eq. intros H10.
  apply Z.rem_divide in H10; [|lia]. destruct H10 as [q Hq].
  apply Z.rem_divide; [lia|]. exists (q * 5)%Z. lia.
Qed.

(** C5.  The gates test the tick [int(t*100)] against the periods 2
    (landmarks, 50 Hz) and 10 (GPS, 10 Hz), both divisors of the 100 Hz
    grid.  But the binary64 clock drifts, and [int(t*100)] cuts the drift
    off downward.  After eleven additions of [dt] the clock reads
    0.10999999999999999; a hundred times that is 10.999999999999998, so the
    tick is 10 like that of pass 10, and the tick of pass 12 is 11.  So in
    pass 11, which is neither even nor a multiple of 10, both gates are
    open and every filter is corrected with the three landmarks and the
    position fix, as in pass 10; and in the even pass 12 no filter is
    corrected at all.  The GPS gate never opens without the landmark
    gate. *)
Theorem gates_follow_the_truncated_clock (L : Library) :
  to_int (100 / Double.of_int landmark_freq) = 2%Z
  /\ to_int (100 / Double.of_int gps_freq) = 10%Z
  /\ (time_at 11 : float) = 0.10999999999999999
  /\ (time_at 11 * 100 : float) = 10.999999999999998
  /\ tick (time_at 10 : float) = 10%Z
  /\ tick (time_at 11 : float) = 10%Z
  /\ tick (time_at 12 : float) = 11%Z
  /\ map fst (corrections (iteration L 10)) = measurement_models ++ [DummyGPS R_gps]
  /\ map fst (corrections (iteration L 11)) = measurement_models ++ [DummyGPS R_gps]
  /\ corrections (iteration L 12) = []
  /\ (forall t0 : float,
        negb (gps_due t0) || landmark_due t0 = true).
Proof.
  destruct gate_periods as [Hlm Hgps].
  split; [exact Hlm|]. split; [exact Hgps|].
  do 5 (split; [reflexivity|]).
  unfold corrections. rewrite !iteration_time.
  split; [reflexivity|]. split; [reflexivity|]. split; [reflexivity|].
  intros t0. destruct (gps_due t0) eqn:Hg; [|reflexivity].
  cbn [negb orb]. now apply gps_due_landmark_due.
Qed.

(* ================================================================= *)
(** * The landmarks *)

Lemma check_seconds_spec (m : nat) :
  forall a, check_seconds m (time_at a) = true ->
  forall j, (j < m)%nat ->
  about_50 (landmark_passes_in_a_second (time_at (a + 100 * j))) = true.
Proof.
  induction m as [|m IH]; intros a Hc j Hj; [lia|].
  cbn [check_seconds] in Hc. apply andb_prop in Hc as [H0 Hrest].
  destruct j as [|j].
  - now rewrite Nat.mul_0_r, Nat.add_0_r.
  - rewrite <- time_at_add in Hrest.
    replace (a + 100 * S j)%nat with (a + 100 + 100 * j)%nat by lia.
    apply IH; [exact Hrest | lia].
Qed.

(** The 240 seconds of the run. *)
Lemma fifty_per_second : check_seconds 240 t_start = true.
Proof. vm_compute. reflexivity. Qed.

(** X13.  Over the run the landmark gate opens in about 50 passes per
    second: each of the 240 seconds of the run (the passes 100 j to
    100 j + 99) holds between 49 and 51 passes with landmark updates,
    11999 in the 24001 passes altogether.  In a pass whose gate is open
    the calls are those of the three landmarks, landmark after landmark,
    each to the four filters; in any other pass there is none. *)
Theorem three_landmarks_at_50_Hz (L : Library) (k : nat) :
  let s := iteration L k in
  measurement_models
  = [ Landmark2D (vec2 2 0) (Eigen.scaled_identity 0.0001);
      Landmark2D (vec2 2 1) (Eigen.scaled_identity 0.0001);
      Landmark2D (vec2 2 (-1)) (Eigen.scaled_identity 0.0001) ]
  /\ R = Eigen.scaled_identity (0.01 * 0.01)
  /\ 0.01 * 0.01 = 0.0001
  /\ landmark_freq = 50%Z /\ control_freq = 100%Z /\ dt = 0.01
  /\ to_int (100 / Double.of_int landmark_freq) = 2%Z
  /\ landmark_updates (calls (step s))
     = (if landmark_due (t s)
        then flat_map (fun i => update_calls (model_at i) (y_landmark s i)) [0; 1; 2]%nat
        else [])
  /\ (forall j, (j < 240)%nat ->
        (49 <= landmark_passes_in_a_second (time_at (100 * j)) <= 51)%nat)
  /\ count_times (landmark_due : float -> bool) total_passes t_start = 11999%nat.
Proof.
  intros s. do 7 (split; [reflexivity|]).
  split.
  { pose proof (iteration_slots L k) as Hs. fold s in Hs.
    rewrite (step_calls L s Hs).
    unfold simulation_calls, prediction_calls, correction_calls.
    destruct (landmark_due (t s)), (gps_due (t s)); reflexivity. }
  split.
  { intros j Hj.
    pose proof (check_seconds_spec 240 0 fifty_per_second j Hj) as Hc.
    cbn [Nat.add] in Hc. unfold about_50 in Hc.
    apply andb_prop in Hc as [Hlo Hhi].
    apply Nat.leb_le in Hlo, Hhi. split; assumption. }
  vm_compute. reflexivity.
Qed.

(** The count in the third second of the run, read off the statement on
    the stand-in library. *)
Lemma three_landmarks_at_50_Hz_third_second :
  (49 <= landmark_passes_in_a_second (time_at (100 * 2)) <= 51)%nat.
Proof.
  refine (proj1 (proj2 (proj2 (proj2 (proj2 (proj2 (proj2 (proj2 (proj2
           (three_landmarks_at_50_Hz Plain.library 0))))))))) 2%nat _).
  lia.
Defined.

(** Passes 11 and 12: both gates are open in the odd pass, and the
    landmark gate is shut in the even one. *)
Lemma gates_of_passes_11_and_12 :
  landmark_due (time_at 11 : float) = true
  /\ gps_due (time_at 11 : float) = true
  /\ landmark_due (time_at 12 : float) = false
  /\ gps_due (time_at 12 : float) = false.
Proof. repeat split. Qed.

(** C6.  The demo has exactly three landmarks, at (2, 0), (2, 1) and
    (2, -1), each with the measurement covariance [R] = 1e-4 times the
    identity (the square of 0.01 on the diagonal), and their gate is set
    for [landmark_freq] = 50 Hz on the clock of [control_freq] = 100 Hz,
    [dt] = 0.01 s: it tests the tick against the period 100 / 50 = 2.  In
    a pass whose gate is open every filter is corrected by the library's
    [update] with the three landmarks in turn, after its [propagate]; in
    any other pass with none.  But the updates do not stay on the 50 Hz
    grid, the even passes.  In the odd pass 11 the gate is open: the pass
    makes the twelve landmark updates, and every filter leaves it
    propagated, corrected with the three landmarks and then with the
    position fix.  In the even pass 12 the gate is shut: the pass makes
    no update and every filter leaves it propagated only.  Over the run
    the gate opens in 11999 passes, where the grid has 12001. *)
Theorem landmark_updates_leave_the_grid (L : Library) :
  measurement_models
  = [ Landmark2D (vec2 2 0) (Eigen.scaled_identity 0.0001);
      Landmark2D (vec2 2 1) (Eigen.scaled_identity 0.0001);
      Landmark2D (vec2 2 (-1)) (Eigen.scaled_identity 0.0001) ]
  /\ R = Eigen.scaled_identity (0.01 * 0.01)
  /\ 0.01 * 0.01 = 0.0001
  /\ landmark_freq = 50%Z /\ control_freq = 100%Z /\ dt = 0.01
  /\ to_int (100 / Double.of_int landmark_freq) = 2%Z
  /\ (forall k : nat,
        let s := iteration L k in
        landmark_updates (calls (step s))
        = (if landmark_due (t s)
           then flat_map (fun i =>
                  [Update EKF (model_at i) (y_landmark s i);
                   Update SEKF (model_at i) (y_landmark s i);
                   Update IEKF (model_at i) (y_landmark s i);
                   Update UKFM (model_at i) (y_landmark s i)]) [0; 1; 2]%nat
           else []))
  /\ (forall (k : nat) (v : Variant),
        let s := iteration L k in
        let f := propagate L v (system_model L) (filter_of v s) (u_est s)
                   (step_argument v) in
        let g := if landmark_due (t s)
                 then update L v (Landmark2D (vec2 2 (-1)) R)
                        (update L v (Landmark2D (vec2 2 1) R)
                           (update L v (Landmark2D (vec2 2 0) R) f
                              (y_landmark s 0))
                           (y_landmark s 1))
                        (y_landmark s 2)
                 else f in
        filter_of v (iteration L (S k))
        = if gps_due (t s) then update L v (DummyGPS R_gps) g (y_gps s) else g)
  /\ Nat.even 11 = false
  /\ landmark_due (t (iteration L 11)) = true
  /\ List.length (landmark_updates (calls (step (iteration L 11)))) = 12%nat
  /\ (forall v : Variant,
        let s := iteration L 11 in
        filter_of v (iteration L 12)
        = update L v (DummyGPS R_gps)
            (update L v (Landmark2D (vec2 2 (-1)) R)
               (update L v (Landmark2D (vec2 2 1) R)
                  (update L v (Landmark2D (vec2 2 0) R)
                     (propagate L v (system_model L) (filter_of v s) (u_est s)
                        (step_argument v))
                     (y_landmark s 0))
                  (y_landmark s 1))
               (y_landmark s 2))
            (y_gps s))
  /\ Nat.even 12 = true
  /\ landmark_due (t (iteration L 12)) = false
  /\ landmark_updates (calls (step (iteration L 12))) = []
  /\ (forall v : Variant,
        let s := iteration L 12 in
        filter_of v (iteration L 13)
        = propagate L v (system_model L) (filter_of v s) (u_est s)
            (step_argument v))
  /\ count_times (landmark_due : float -> bool) total_passes t_start = 11999%nat
  /\ Z.of_nat (List.length (filter Nat.even (seq 0 total_passes))) = 12001%Z.
Proof.
  destruct gates_of_passes_11_and_12 as (Hl11 & Hg11 & Hl12 & Hg12).
  assert (Hcalls : forall k : nat,
            landmark_updates (calls (step (iteration L k)))
            = (if landmark_due (t (iteration L k))
               then flat_map (fun i =>
                      [Update EKF (model_at i) (y_landmark (iteration L k) i);
                       Update SEKF (model_at i) (y_landmark (iteration L k) i);
                       Update IEKF (model_at i) (y_landmark (iteration L k) i);
                       Update UKFM (model_at i) (y_landmark (iteration L k) i)])
                      [0; 1; 2]%nat
               else [])).
  { intros k. rewrite (step_calls L _ (iteration_slots L k)).
    unfold simulation_calls, prediction_calls, correction_calls.
    destruct (landmark_due (t (iteration L k))), (gps_due (t (iteration L k)));
      reflexivity. }
  assert (Hnext : forall (k : nat) (v : Variant),
            filter_of v (iteration L (S k)) = fed v (iteration L k)).
  { intros k v. rewrite iteration_succ. destruct v; reflexivity. }
  do 7 (split; [reflexivity|]).
  split; [exact Hcalls|].
  split.
  { intros k v s f g. subst s f g. rewrite Hnext. unfold fed, corrections.
    destruct (landmark_due (t (iteration L k))), (gps_due (t (iteration L k)));
      reflexivity. }
  split; [reflexivity|].
  split; [rewrite iteration_time; exact Hl11|].
  split; [rewrite Hcalls, iteration_time, Hl11; reflexivity|].
  split.
  { intros v s. subst s. rewrite Hnext. unfold fed, corrections.
    rewrite iteration_time, Hl11, Hg11. reflexivity. }
  split; [reflexivity|].
  split; [rewrite iteration_time; exact Hl12|].
  split; [rewrite Hcalls, iteration_time, Hl12; reflexivity|].
  split.
  { intros v s. subst s. rewrite Hnext. unfold fed, corrections.
    rewrite iteration_time, Hl12, Hg12. reflexivity. }
  split; vm_compute; reflexivity.
Qed.

(* ================================================================= *)
(** * The simulated calibration block *)

Lemma diff_drive_keeps_calibration (L : Library) :
  model_is_diff_drive L -> model_keeps_calibration L.
Proof. intros H m X u. now rewrite H. Qed.

Section LoadEvent.

Variable L : Library.
Hypothesis model_keeps : model_keeps_calibration L.

Lemma moved_calib (s : Loop L) :
  calib (X_moved s) = Eigen.plus3 (calib (X_driven s)) Eigen.Zero3.
Proof. unfold X_moved. apply model_keeps. Qed.

Lemma driven_at (k : nat) :
  (k < total_passes)%nat ->
  X_driven (iteration L k)
  = if (k <? nominal_passes)%nat
    then X_simulation (iteration L k)
    else squeezed (X_simulation (iteration L k)).
Proof.
  intros Hk. unfold X_driven.
  rewrite iteration_time, (Clock64.loaded_iff k Hk).
  now destruct (k <? nominal_passes)%nat.
Qed.

(** Until the load comes the simulated block stays (1, 1, 1). *)
Lemma nominal_calib (k : nat) :
  (k <= nominal_passes)%nat ->
  calib (X_simulation (iteration L k)) = vec3 1 1 1.
Proof.
  induction k as [|k IH]; intros Hk; [reflexivity|].
  rewrite iteration_succ. cbn [next_state X_simulation].
  rewrite moved_calib, driven_at by Clock64.passes.
  destruct (Nat.ltb_spec k nominal_passes) as [_|Hge]; [|lia].
  rewrite IH by lia. reflexivity.
Qed.

(** The block the simulated model is called on. *)
Lemma driven_calib (k : nat) :
  (k < total_passes)%nat ->
  calib (X_driven (iteration L k))
  = if (k <? nominal_passes)%nat then vec3 1 1 1 else vec3 0.85 0.85 1.
Proof.
  intros Hk. rewrite (driven_at k Hk).
  destruct (Nat.ltb_spec k nominal_passes) as [Hlt|Hge].
  - apply nominal_calib. lia.
  - reflexivity.
Qed.

End LoadEvent.

(* ================================================================= *)
(** * The pose increment of the system model *)

(** C4.  For every state X = (P, c) and control u = (phi_l, phi_r) the
    pose increment of the differential-drive model is (dl, 0, dtheta) with
    dl = 0.5 (r_l phi_l + r_r phi_r) and dtheta = (r_r phi_r - r_l phi_l) /
    d_w, where (r_l, r_r, d_w) = (c_0, c_1, c_2) is the calibration block
    of the state the model is called on; the model moves the pose by that
    increment with the library's right-plus, carries [c] over, and reads
    nothing of the model object.  On the block (0.15, 0.3, 0.4) the
    nominal control gives (0.0009, 0, 0.00075); on (1, 1, 1) it gives
    (0.00425, 0, -0.0015) and on (0.85, 0.85, 1) it gives (0.0036125, 0,
    -0.001275).  So with a library whose model this is, every pass of the
    run before pass 12000 moves the simulated pose by the second of these
    increments, and every pass from 12000 on by the third. *)
Theorem pose_increment_from_calibration
    (L : Library) (Hmodel : model_is_diff_drive L)
    (m : SystemModel) (X : State L) (u : Control) :
  let c := calib X in
  let dl := 0.5 * (a0 c * x0 u + a1 c * x1 u) in
  let dtheta := (a1 c * x1 u - a0 c * x0 u) / a2 c in
  DiffDrive.extract c = Build_Kinematics (a0 c) (a1 c) (a2 c)
  /\ DiffDrive.pose_tangent c u = vec3 dl 0 dtheta
  /\ DiffDrive.apply (SE2_rplus L) m X u
     = Build_Bundle (SE2_rplus L (pose X) (vec3 dl 0 dtheta))
                    (vec3 (a0 c + 0) (a1 c + 0) (a2 c + 0))
  /\ model_call L m X u
     = Build_Bundle (SE2_rplus L (pose X) (vec3 dl 0 dtheta))
                    (vec3 (a0 c + 0) (a1 c + 0) (a2 c + 0))
  /\ (forall m' : SystemModel, model_call L m' X u = model_call L m X u)
  /\ DiffDrive.pose_tangent (vec3 0.15 0.3 0.4) u_simu
     = vec3 0.0009 0 0.0007499999999999998
  /\ DiffDrive.pose_tangent (vec3 1 1 1) u_simu
     = vec3 0.00425 0 (-0.0015000000000000005)
  /\ DiffDrive.pose_tangent (vec3 0.85 0.85 1) u_simu
     = vec3 0.0036125000000000003 0 (-0.0012750000000000005)
  /\ (forall k : nat, (k < total_passes)%nat ->
        X_simulation (iteration L (S k))
        = if (k <? nominal_passes)%nat
          then Build_Bundle
                 (SE2_rplus L (pose (X_simulation (iteration L k)))
                    (vec3 0.00425 0 (-0.0015000000000000005)))
                 (vec3 1 1 1)
          else Build_Bundle
                 (SE2_rplus L (pose (X_simulation (iteration L k)))
                    (vec3 0.0036125000000000003 0 (-0.0012750000000000005)))
                 (vec3 0.85 0.85 1)).
Proof.
  intros c dl dtheta. subst c dl dtheta.
  split; [reflexivity|]. split; [reflexivity|]. split; [reflexivity|].
  split; [rewrite Hmodel; reflexivity|].
  split; [intros m'; rewrite !Hmodel; reflexivity|].
  do 3 (split; [reflexivity|]).
  intros k Hk.
  pose proof (diff_drive_keeps_calibration L Hmodel) as Hkeeps.
  pose proof (driven_calib L Hkeeps k Hk) as Hc.
  pose proof (driven_at L k Hk) as Hd.
  rewrite iteration_succ. cbn [next_state X_simulation].
  unfold X_moved. rewrite Hmodel. unfold DiffDrive.apply. rewrite Hc.
  rewrite Hd.
  destruct (k <? nominal_passes)%nat; reflexivity.
Qed.

(** The statement on the stand-in library, whose model is the model of
    the specification: its first pass. *)
Lemma pose_increment_on_the_plain_library :
  X_simulation (iteration Plain.library 1)
  = Build_Bundle (vec3 0.00425 0 (-0.0015000000000000005)) (vec3 1 1 1).
Proof.
  assert (Hmodel : model_is_diff_drive Plain.library)
    by (intros m X u; reflexivity).
  assert (Hk : (0 < total_passes)%nat)
    by (apply Nat.ltb_lt; vm_compute; reflexivity).
  pose proof (pose_increment_from_calibration Plain.library Hmodel
                (system_model Plain.library)
                (X_simulation (loop_init Plain.library)) u_simu) as H.
  cbv zeta in H.
  destruct H as (_ & _ & _ & _ & _ & _ & _ & _ & Hrun).
  rewrite (Hrun 0%nat Hk). reflexivity.
Defined.

(* ================================================================= *)
(** * The load event *)




(* ================================================================= *)
(** * The whole run *)

Lemma loop_from_pass (L : Library) (n : nat) :
  forall k fuel,
    (k + n = total_passes)%nat -> (n < fuel)%nat ->
    loop L fuel (iteration L k)
    = Some (iteration L total_passes, calls_of_passes L k n).
Proof.
  induction n as [|n IH]; intros k fuel Hk Hfuel.
  - destruct fuel as [|fuel]; [lia|].
    rewrite Nat.add_0_r in Hk. subst k.
    cbn [loop]. now rewrite iteration_time, Clock64.stops.
  - destruct fuel as [|fuel]; [lia|].
    cbn [loop].
    rewrite iteration_time, Clock64.running_before_stop by lia.
    change (after (step (iteration L k))) with (iteration L (S k)).
    rewrite (IH (S k) fuel) by lia.
    reflexivity.
Qed.

(** The loop ends, after 24001 passes: the guard [t < 240] holds up to
    pass 24000 and fails when pass 24001 would start.  The calls of the
    run are those of the passes, in order. *)
Lemma main_makes_24001_passes (L : Library) (fuel : nat) :
  (total_passes < fuel)%nat ->
  main L fuel = Some (iteration L total_passes, calls_of_passes L 0 total_passes).
Proof.
  intros Hfuel. unfold main.
  change (loop_init L) with (iteration L 0).
  apply loop_from_pass; [reflexivity | exact Hfuel].
Qed.

(** The run on the stand-in library, with fuel for 24002 passes. *)
Lemma main_on_the_plain_library :
  main Plain.library (S (S total_passes))
  = Some (iteration Plain.library total_passes,
          calls_of_passes Plain.library 0 total_passes).
Proof. apply main_makes_24001_passes. lia. Defined.

(* ================================================================= *)
(** * Small runs *)

(** [int(x)] cuts toward zero. *)
Example to_int_cuts_toward_zero :
  Double.to_int 2.7 = 2%Z /\ Double.to_int (-2.7) = (-2)%Z
  /\ Double.to_int 10.999999999999998 = 10%Z /\ Double.to_int 0 = 0%Z
  /\ Double.to_int 24000 = 24000%Z.
Proof. repeat split. Qed.

(** The ticks of the passes 9 to 16: 10 comes twice and 14 never. *)
Example first_ticks :
  map (fun k => tick (time_at k : float)) [9; 10; 11; 12; 13; 14; 15; 16]%nat
  = [9; 10; 10; 11; 12; 13; 15; 16]%Z.
Proof. vm_compute. reflexivity. Qed.

(** Pass 0 on the stand-in library: both gates are open, and the pass
    makes 31 calls. *)
Example first_pass_on_the_plain_library :
  length (calls (step (loop_init Plain.library))) = 31%nat
  /\ X_simulation (after (step (loop_init Plain.library)))
     = Build_Bundle (vec3 0.00425 0 (-0.0015000000000000005))
                    (vec3 1 1 1).
Proof. split; vm_compute; reflexivity. Qed.

(** The initial pair on the stand-in library, whose generator draws
    zero: every estimator starts at the identity pose with the
    coefficients (1, 1, 1). *)
Lemma estimators_share_initial_pair_plain :
  getState (filter_of SEKF (loop_init Plain.library))
  = Build_Bundle (vec3 0 0 0) (vec3 1 1 1)
  /\ filter_of SEKF (loop_init Plain.library)
     = Build_Filter (X_init Plain.library) state_cov_init.
Proof.
  pose proof (estimators_share_initial_pair Plain.library SEKF)
    as (HX & _ & _ & Hctor & _).
  split.
  - rewrite HX. reflexivity.
  - apply Hctor. discriminate.
Defined.


(* ================================================================= *)
(** * More about the passes *)

Section PassFacts.

Variable L : Library.

(** With a generator that draws no control noise the estimation control
    is the simulation control. *)
Lemma silent_u_est (s : Loop L) : silent_control_noise L -> u_est s = u_simu.
Proof.
  intros Hsilent. unfold u_est, u_noisy, u_noise. rewrite Hsilent. reflexivity.
Qed.

Lemma length_over_passes {A : Type} (g : Call L -> list A) (f : float -> nat) :
  (forall k, length (flat_map g (calls (step (iteration L k)))) = f (time_at k)) ->
  forall n a,
    length (flat_map g (calls_of_passes L a n)) = sum_times f n (time_at a).
Proof.
  intros Hf n. induction n as [|n IH]; intros a; [reflexivity|].
  unfold calls_of_passes. cbn [seq flat_map].
  rewrite flat_map_app, length_app, Hf.
  fold (calls_of_passes L (S a) n). rewrite IH. reflexivity.
Qed.

Lemma check_passes_spec (P : Z -> float -> bool) (n : nat) :
  forall a, check_passes P n (Z.of_nat a) (time_at a) = true ->
  forall j, (a <= j < a + n)%nat -> P (Z.of_nat j) (time_at j) = true.
Proof.
  induction n as [|n IH]; intros a Hc j Hj; [lia|].
  cbn [check_passes] in Hc. apply andb_prop in Hc as [H0 Hrest].
  destruct (Nat.eq_dec j a) as [->|Hne]; [exact H0|].
  apply (IH (S a)); [|lia].
  rewrite Nat2Z.inj_succ. exact Hrest.
Qed.

Lemma check_gps_seconds_spec (m : nat) :
  forall a, check_gps_seconds m (time_at a) = true ->
  forall j, (j < m)%nat ->
  about_10 (gps_passes_in_a_second (time_at (a + 100 * j))) = true.
Proof.
  induction m as [|m IH]; intros a Hc j Hj; [lia|].
  cbn [check_gps_seconds] in Hc. apply andb_prop in Hc as [H0 Hrest].
  destruct j as [|j].
  - now rewrite Nat.mul_0_r, Nat.add_0_r.
  - rewrite <- time_at_add in Hrest.
    replace (a + 100 * S j)%nat with (a + 100 + 100 * j)%nat by lia.
    apply IH; [exact Hrest | lia].
Qed.

(** The state the body of a pass leaves, before [t += dt]. *)
Lemma body_after (s : Loop L) :
  slots_ok s -> after (body (t s) s) = set_t L (t s) (next_state s).
Proof.
  destruct s as [t0 Xs Xu ms f1 f2 f3 f4 g].
  unfold slots_ok. cbn [measurements t]. intros Hlen.
  destruct ms as [|y0 [|y1 [|y2 [|y3 ys]]]]; try discriminate.
  unfold next_state, fed, corrections, rng_end, y_landmark, y_gps, X_moved, X_driven.
  cbn [t fold_left map].
  destruct (loaded t0) eqn:Hl, (landmark_due t0) eqn:Hlm, (gps_due t0) eqn:Hg;
    cbv beta delta
      [body when tyre_squeeze bind ret gets modify for_each landmark_indices
       seq List.length measurement_models call_randn call_model call_expect
       call_propagate call_update value after calls app set_t set_rng
       set_X_simulation set_X_unfiltered set_measurements set_filter filter_of
       t X_simulation X_unfiltered measurements ekf sekf iekf ukfm rng
       Eigen.set_nth measurement_at nth]
      iota zeta;
    rewrite ?Hl, ?Hlm, ?Hg; reflexivity.
Qed.

End PassFacts.

Module Run64.

Lemma ticks_lag_by_one :
  check_passes tick_lags_by_one total_passes 0%Z t_start = true.
Proof. vm_compute. reflexivity. Qed.

Lemma gps_stays_near_its_grid :
  check_passes gps_near_its_grid total_passes 0%Z t_start = true.
Proof. vm_compute. reflexivity. Qed.

Lemma clock_stays_close :
  check_passes clock_is_close total_passes 0%Z t_start = true.
Proof. vm_compute. reflexivity. Qed.

Lemma ten_per_second : check_gps_seconds 240 t_start = true.
Proof. vm_compute. reflexivity. Qed.

Lemma draws_of_the_run :
  Z.of_nat (sum_times (fun t0 => 4 + (if gps_due t0 then 1 else 0))%nat
                      total_passes t_start)
  = 98404%Z.
Proof. vm_compute. reflexivity. Qed.

End Run64.

(* ================================================================= *)
(** * The baseline without noise *)

(** X3.  If the generator draws no control noise, the control of the
    filters and of the baseline is the simulation's, [u_nom * dt], and the
    unfiltered state equals the simulated state in every pass up to pass
    12000: the two are moved by the same model from the same start.  In
    pass 12000 they part: the simulation is moved from the squeezed copy
    of that common state, the baseline from the state itself. *)
Theorem baseline_follows_simulation_without_noise
    (L : Library) (Hsilent : silent_control_noise L)
    (k : nat) (Hk : (k <= nominal_passes)%nat) :
  X_unfiltered (iteration L k) = X_simulation (iteration L k)
  /\ u_est (iteration L k) = Eigen.scale u_nom dt
  /\ X_driven (iteration L nominal_passes)
     = squeezed (X_unfiltered (iteration L nominal_passes)).
Proof.
  assert (Hsame : forall j, (j <= nominal_passes)%nat ->
            X_unfiltered (iteration L j) = X_simulation (iteration L j)).
  { induction j as [|j IH]; intros Hj; [reflexivity|].
    rewrite iteration_succ. cbn [next_state X_unfiltered X_simulation].
    unfold X_moved. rewrite driven_at by Clock64.passes.
    destruct (Nat.ltb_spec j nominal_passes) as [_|Hge]; [|lia].
    rewrite (silent_u_est L _ Hsilent), IH by lia. reflexivity. }
  split; [now apply Hsame|].
  split; [now apply silent_u_est|].
  rewrite driven_at by Clock64.passes.
  rewrite Nat.ltb_irrefl, Hsame by lia. reflexivity.
Qed.

(** The stand-in library draws no noise: its baseline is on the simulated
    state when the load comes. *)
Lemma baseline_at_pass_12000_plain :
  X_unfiltered (iteration Plain.library nominal_passes)
  = X_simulation (iteration Plain.library nominal_passes)
  /\ u_est (iteration Plain.library nominal_passes) = Eigen.scale u_nom dt
  /\ X_driven (iteration Plain.library nominal_passes)
     = squeezed (X_unfiltered (iteration Plain.library nominal_passes)).
Proof.
  apply (baseline_follows_simulation_without_noise Plain.library).
  - intros g. reflexivity.
  - apply Nat.le_refl.
Defined.

(* ================================================================= *)
(** * When the load block runs *)

(** X4.  Whatever the library, the block under [t > 120] runs in no pass
    before pass 12000 and in every pass from 12000 to the last: before,
    the model is called on the simulated state as the previous pass left
    it; from then on it is called on the coefficients (0.85, 0.85, 1),
    set anew in each pass over whatever the model returned, with the pose
    untouched.  Setting them twice is setting them once. *)
Theorem load_block_runs_from_pass_12000
    (L : Library) (k : nat) (Hk : (k < total_passes)%nat) :
  X_driven (iteration L k)
  = (if (k <? nominal_passes)%nat
     then X_simulation (iteration L k)
     else squeezed (X_simulation (iteration L k)))
  /\ ((nominal_passes <= k)%nat -> calib (X_driven (iteration L k)) = vec3 0.85 0.85 1)
  /\ pose (X_driven (iteration L k)) = pose (X_simulation (iteration L k))
  /\ X_simulation (iteration L (S k))
     = model_call L (system_model L) (X_driven (iteration L k)) u_simu
  /\ (forall X : State L, squeezed (squeezed X) = squeezed X).
Proof.
  pose proof (driven_at L k Hk) as Hd.
  split; [exact Hd|]. split; [|split; [|split]].
  - intros Hge. rewrite Hd.
    destruct (Nat.ltb_spec k nominal_passes) as [Hlt|_]; [lia|reflexivity].
  - rewrite Hd. now destruct (k <? nominal_passes)%nat.
  - rewrite iteration_succ. reflexivity.
  - intros X. reflexivity.
Qed.

(** The first loaded pass on the stand-in library. *)
Lemma load_block_at_pass_12000_plain :
  calib (X_driven (iteration Plain.library nominal_passes)) = vec3 0.85 0.85 1.
Proof.
  assert (Hk : (nominal_passes < total_passes)%nat) by Clock64.passes.
  exact (proj1 (proj2 (load_block_runs_from_pass_12000 Plain.library
                         nominal_passes Hk))
               (Nat.le_refl nominal_passes)).
Defined.

(* ================================================================= *)
(** * Stored measurements *)

(** X5.  What the vector [measurements] holds when a pass starts never
    matters: the pass writes every slot before it reads any, so two
    starts that differ only in the stored measurements make the same
    calls and leave the same variables. *)
Theorem stale_measurements_never_matter
    (L : Library) (s : Loop L) (ms : list Vector2d)
    (Hs : slots_ok s) (Hms : List.length ms = List.length measurement_models) :
  after (step (set_measurements L ms s)) = after (step s)
  /\ calls (step (set_measurements L ms s)) = calls (step s)
  /\ measurements (after (step s)) = map (y_landmark s) [0; 1; 2]%nat.
Proof.
  assert (Hs' : slots_ok (set_measurements L ms s)) by exact Hms.
  rewrite (step_after L _ Hs'), (step_after L _ Hs).
  rewrite (step_calls L _ Hs'), (step_calls L _ Hs).
  repeat split.
Qed.

(** Two starts of the first pass on the stand-in library. *)
Lemma stale_measurements_plain :
  let s := loop_init Plain.library in
  let ms := [vec2 1 2; vec2 3 4; vec2 5 6] in
  after (step (set_measurements Plain.library ms s)) = after (step s)
  /\ calls (step (set_measurements Plain.library ms s)) = calls (step s)
  /\ measurements (after (step s)) = map (y_landmark s) [0; 1; 2]%nat.
Proof.
  intros s ms.
  apply (stale_measurements_never_matter Plain.library s ms); reflexivity.
Defined.

(* ================================================================= *)
(** * Draws and simulated measurements *)

(** X6.  Every pass draws from the generator in the same order: the
    control noise, then one measurement noise per landmark, then the GPS
    noise if the GPS gate is open.  The three landmarks are measured on
    the simulated state just moved in every pass, whether or not the
    landmark gate is open; so a pass makes four draws, or five with a
    position fix, and the run makes 98404. *)
Theorem generator_draws_of_a_pass (L : Library) (k : nat) :
  let s := iteration L k in
  randn_sigmas (calls (step s))
  = Eigen.array_quot u_sigmas sqrtdt
    :: repeat y_sigmas 3 ++ (if gps_due (t s) then [y_gps_sigmas] else [])
  /\ expectations (calls (step s))
     = map (fun m => (m, X_simulation (iteration L (S k))))
           (measurement_models ++ (if gps_due (t s) then [DummyGPS R_gps] else []))
  /\ rng (iteration L (S k)) = rng_end s
  /\ Z.of_nat (List.length (randn_sigmas (calls_of_passes L 0 total_passes)))
     = 98404%Z.
Proof.
  intros s.
  assert (Hpass : forall j,
            randn_sigmas (calls (step (iteration L j)))
            = Eigen.array_quot u_sigmas sqrtdt
              :: repeat y_sigmas 3
                 ++ (if gps_due (t (iteration L j)) then [y_gps_sigmas] else [])).
  { intros j. rewrite (step_calls L _ (iteration_slots L j)).
    unfold simulation_calls, prediction_calls, correction_calls.
    destruct (landmark_due (t (iteration L j))), (gps_due (t (iteration L j)));
      reflexivity. }
  split; [apply Hpass|]. split; [|split].
  - rewrite (step_calls L s (iteration_slots L k)), iteration_succ. fold s.
    unfold simulation_calls, prediction_calls, correction_calls.
    destruct (landmark_due (t s)), (gps_due (t s)); reflexivity.
  - rewrite iteration_succ. reflexivity.
  - unfold randn_sigmas at 1.
    rewrite (length_over_passes L _
               (fun t0 => 4 + (if gps_due t0 then 1 else 0))%nat).
    + exact Run64.draws_of_the_run.
    + intros j. fold (randn_sigmas (calls (step (iteration L j)))).
      rewrite Hpass, iteration_time.
      destruct (gps_due (time_at j)); reflexivity.
Qed.

(* ================================================================= *)
(** * The position fixes *)

(** X7.  The position fix is measured by [DummyGPSMeasurementModel] with
    the covariance [R_gps] = 6e-3 times the identity, on the simulated
    state just moved, and given to the four filters in the order EKF,
    SEKF, IEKF, UKFM, in the passes whose GPS gate is open and in no
    other.  The gate is set for [gps_freq] = 10 Hz: each of the 240
    seconds of the run holds between 9 and 11 passes with a position fix,
    2400 in the 24001 passes altogether. *)
Theorem position_fixes_at_10_Hz (L : Library) (k : nat) :
  let s := iteration L k in
  gps_updates (calls (step s))
  = (if gps_due (t s)
     then map (fun v => Update v (DummyGPS R_gps) (y_gps s)) [EKF; SEKF; IEKF; UKFM]
     else [])
  /\ y_gps s
     = Eigen.plus (expect L (DummyGPS R_gps) (X_simulation (iteration L (S k))))
                  (fst (randn L y_gps_sigmas (rng_at s 3)))
  /\ R_gps = Eigen.scaled_identity 0.006
  /\ gps_freq = 10%Z
  /\ (forall j, (j < 240)%nat ->
        (9 <= gps_passes_in_a_second (time_at (100 * j)) <= 11)%nat)
  /\ count_times (gps_due : float -> bool) total_passes t_start = 2400%nat.
Proof.
  intros s. split; [|split; [|split; [|split; [|split]]]].
  - rewrite (step_calls L s (iteration_slots L k)).
    unfold simulation_calls, prediction_calls, correction_calls.
    destruct (landmark_due (t s)), (gps_due (t s)); reflexivity.
  - rewrite iteration_succ. reflexivity.
  - reflexivity.
  - reflexivity.
  - intros j Hj.
    pose proof (check_gps_seconds_spec 240 0 Run64.ten_per_second j Hj) as Hc.
    cbn [Nat.add] in Hc. unfold about_10 in Hc.
    apply andb_prop in Hc as [Hlo Hhi].
    apply Nat.leb_le in Hlo, Hhi. split; assumption.
  - vm_compute. reflexivity.
Qed.

(** The position fixes of the last second of the run. *)
Lemma position_fixes_in_the_last_second :
  (9 <= gps_passes_in_a_second (time_at (100 * 239)) <= 11)%nat.
Proof.
  refine (proj1 (proj2 (proj2 (proj2 (proj2
           (position_fixes_at_10_Hz Plain.library 0))))) 239%nat _).
  lia.
Defined.

(* ================================================================= *)
(** * How far the clock is off *)

(** X8.  In every pass of the run the tick [int(t*100)] is the pass
    number or one less: it never runs ahead and never lags by two.  So a
    gate opens at most one pass away from its grid; the GPS gate opens
    only in passes that are 0 or 1 modulo 10. *)
Theorem ticks_lag_at_most_one_pass (k : nat) (Hk : (k < total_passes)%nat) :
  (tick (time_at k : float) = Z.of_nat k
   \/ tick (time_at k : float) = (Z.of_nat k - 1)%Z)
  /\ (gps_due (time_at k : float) = true ->
      (Z.of_nat k mod 10 = 0 \/ Z.of_nat k mod 10 = 1)%Z).
Proof.
  split.
  - pose proof (check_passes_spec tick_lags_by_one total_passes 0
                  Run64.ticks_lag_by_one k) as Hc.
    unfold tick_lags_by_one in Hc.
    apply orb_prop in Hc as [Hc|Hc]; [left|right|lia]; now apply Z.eqb_eq.
  - intros Hg.
    pose proof (check_passes_spec gps_near_its_grid total_passes 0
                  Run64.gps_stays_near_its_grid k) as Hc.
    unfold gps_near_its_grid in Hc. rewrite Hg in Hc. cbn [negb orb] in Hc.
    apply orb_prop in Hc as [Hc|Hc]; [left|right|lia]; now apply Z.eqb_eq.
Qed.

(** Pass 11, whose tick is 10 and whose GPS gate is open. *)
Lemma ticks_lag_at_pass_11 :
  (tick (time_at 11 : float) = Z.of_nat 11
   \/ tick (time_at 11 : float) = (Z.of_nat 11 - 1)%Z)
  /\ (gps_due (time_at 11 : float) = true ->
      (Z.of_nat 11 mod 10 = 0 \/ Z.of_nat 11 mod 10 = 1)%Z).
Proof.
  apply (ticks_lag_at_most_one_pass 11). Clock64.passes.
Defined.

(** X9.  The clock of pass [k] is within 7.4e-11 s of [k / 100] all
    through the run, and it grows from each pass to the next: the drift
    that moves the gates is less than a ten-billionth of a second. *)
Theorem clock_drift_is_small (k : nat) (Hk : (k < total_passes)%nat) :
  (abs (time_at k - Double.of_int (Z.of_nat k) / 100) <? 7.4e-11) = true
  /\ (time_at k <? time_at (S k)) = true.
Proof.
  pose proof (check_passes_spec clock_is_close total_passes 0
                Run64.clock_stays_close k) as Hc.
  unfold clock_is_close in Hc.
  apply andb_prop in Hc as [Hd Hm]; [|lia].
  split; [exact Hd | exact Hm].
Qed.

(** The clock of pass 12000, which reads 120.00000000002449. *)
Lemma clock_drift_at_pass_12000 :
  (abs (time_at nominal_passes - Double.of_int (Z.of_nat nominal_passes) / 100)
   <? 7.4e-11) = true
  /\ (time_at nominal_passes <? time_at (S nominal_passes)) = true.
Proof.
  apply (clock_drift_is_small nominal_passes). Clock64.passes.
Defined.

(* ================================================================= *)
(** * The results of a pass *)

(** X10.  Each pass hands five samples to the collector, named EKF, SEKF,
    IEKF, UKFM and UNFI in this order.  All five are taken against the
    pose of the simulated state as this pass moved it and stamped with
    the [t] of the pass, before [t += dt]; a filter's sample holds the
    pose of its state after the corrections of this pass and the pose
    block of its covariance, the baseline's the pose of the unfiltered
    state and a zero block.  So the sample stamped with the time of pass
    [k] shows the variables with which pass [k + 1] starts. *)
Theorem results_sample_the_pass (L : Library) (k : nat) :
  let next := iteration L (S k) in
  results_of_pass L k
  = map (fun v =>
           Build_Sample (label_of v)
             (pose (X_simulation next))
             (pose (getState (filter_of v next)))
             (topLeftCorner3 (getCovariance (filter_of v next)))
             (time_at k))
        [EKF; SEKF; IEKF; UKFM]
    ++ [Build_Sample "UNFI" (pose (X_simulation next)) (pose (X_unfiltered next))
          [[0; 0; 0]; [0; 0; 0]; [0; 0; 0]] (time_at k)]
  /\ t next = next_time (time_at k).
Proof.
  intros next. subst next. unfold results_of_pass.
  rewrite (body_after L _ (iteration_slots L k)), iteration_succ.
  split.
  - unfold collect_results.
    cbn [set_t next_state t X_simulation X_unfiltered ekf sekf iekf ukfm
         filter_of map app label_of].
    rewrite iteration_time. reflexivity.
  - cbn [next_state t]. now rewrite iteration_time.
Qed.

(* ================================================================= *)
(** * The run, filter by filter *)

Module Totals64.

Lemma updates_of_the_run :
  Z.of_nat (sum_times (fun t0 => (if landmark_due t0 then 3 else 0)
                                 + (if gps_due t0 then 1 else 0))%nat
                      total_passes t_start)
  = 38397%Z.
Proof. vm_compute. reflexivity. Qed.

Lemma propagates_of_the_run :
  Z.of_nat (sum_times (fun _ => 1%nat) total_passes t_start) = 24001%Z.
Proof. vm_compute. reflexivity. Qed.

Lemma landmark_passes_off_grid :
  Z.of_nat (count_passes landmark_off_grid total_passes 0%Z t_start) = 12550%Z.
Proof. vm_compute. reflexivity. Qed.

Lemma gps_passes_off_grid :
  Z.of_nat (count_passes gps_off_grid total_passes 0%Z t_start) = 2511%Z.
Proof. vm_compute. reflexivity. Qed.

Lemma gps_passes_beside_the_grid :
  Z.of_nat (count_passes (fun k t0 => gps_due t0 && negb (k mod 10 =? 0)%Z)
                         total_passes 0%Z t_start) = 1255%Z.
Proof. vm_compute. reflexivity. Qed.

End Totals64.

(** X11.  Over the run every filter is propagated once per pass, 24001
    times, and corrected 38397 times: with the three landmarks in each of
    the 11999 passes whose landmark gate is open and with the position
    fix in each of the 2400 passes whose GPS gate is open.  In a pass a
    filter is corrected with [corrections], the same for all four. *)
Theorem corrections_of_the_run (L : Library) (v : Variant) :
  (forall k, updates_to v (calls (step (iteration L k))) = corrections (iteration L k))
  /\ (forall k, propagates_to v (calls (step (iteration L k))) = [u_est (iteration L k)])
  /\ Z.of_nat (List.length (propagates_to v (calls_of_passes L 0 total_passes)))
     = 24001%Z
  /\ Z.of_nat (List.length (updates_to v (calls_of_passes L 0 total_passes)))
     = 38397%Z
  /\ (38397 = 3 * 11999 + 2400)%Z.
Proof.
  assert (Hup : forall k, updates_to v (calls (step (iteration L k)))
                          = corrections (iteration L k)).
  { intros k. rewrite (step_calls L _ (iteration_slots L k)).
    unfold simulation_calls, prediction_calls, correction_calls, corrections.
    destruct v, (landmark_due (t (iteration L k))), (gps_due (t (iteration L k)));
      reflexivity. }
  assert (Hpr : forall k, propagates_to v (calls (step (iteration L k)))
                          = [u_est (iteration L k)]).
  { intros k. rewrite (step_calls L _ (iteration_slots L k)).
    unfold simulation_calls, prediction_calls, correction_calls.
    destruct v, (landmark_due (t (iteration L k))), (gps_due (t (iteration L k)));
      reflexivity. }
  split; [exact Hup|]. split; [exact Hpr|]. split; [|split; [|reflexivity]].
  - unfold propagates_to at 1.
    rewrite (length_over_passes L _ (fun _ => 1%nat)).
    + exact Totals64.propagates_of_the_run.
    + intros k. fold (propagates_to v (calls (step (iteration L k)))).
      now rewrite Hpr.
  - unfold updates_to at 1.
    rewrite (length_over_passes L _
               (fun t0 => (if landmark_due t0 then 3 else 0)
                          + (if gps_due t0 then 1 else 0))%nat).
    + exact Totals64.updates_of_the_run.
    + intros k. fold (updates_to v (calls (step (iteration L k)))).
      rewrite Hup. unfold corrections. rewrite iteration_time.
      destruct (landmark_due (time_at k)), (gps_due (time_at k)); reflexivity.
Qed.

(** X12.  The gates leave their grids in a large part of the run: in
    12550 of the 24001 passes the landmark gate is open in an odd pass or
    closed in an even one, and in 2511 passes the GPS gate is open off
    the multiples of 10 (1255 passes) or closed on one (1256 passes). *)
Theorem gates_off_their_grids :
  Z.of_nat (count_passes landmark_off_grid total_passes 0%Z t_start) = 12550%Z
  /\ Z.of_nat (count_passes gps_off_grid total_passes 0%Z t_start) = 2511%Z
  /\ Z.of_nat (count_passes (fun k t0 => gps_due t0 && negb (k mod 10 =? 0)%Z)
                            total_passes 0%Z t_start) = 1255%Z
  /\ landmark_off_grid 11 (time_at 11) = true
  /\ landmark_off_grid 12 (time_at 12) = true
  /\ landmark_off_grid 16 (time_at 16) = false.
Proof.
  split; [exact Totals64.landmark_passes_off_grid|].
  split; [exact Totals64.gps_passes_off_grid|].
  split; [exact Totals64.gps_passes_beside_the_grid|].
  repeat split.
Qed.
